(** * Grounding-resistance engine of the antenna grounding simulator

    Shallow embedding of [groundMath.js] (the calculation engine) and of the
    event handlers of [main.js], [terrain.js] and [climate.js] that write into
    the grounding configuration.

    Numbers.  The engine is embedded twice.

    In [GroundMath] a JavaScript number is modelled by [number]: an exact
    real, one of the two infinities, or NaN.  Finite arithmetic is exact
    (rounding, overflow and underflow of binary64 are abstracted away, and
    zero carries no sign); the special values follow IEEE 754 as JavaScript
    does, so that [Infinity] produced by the guards of the engine propagates
    through multiplication, comparison and division exactly as in the source.
    The laws of the engine are stated over this model, with the margins and
    the bounds on the magnitudes that keep them true once every operation
    rounds.

    In [B64] the same functions run on binary64 itself (the primitive floats),
    operation by operation as the source writes them; this is where a law of
    the exact model that rounding or overflow breaks is refuted on concrete
    inputs. *)

From Stdlib Require Import Reals Lra Lia ZArith String List Bool.
From Stdlib Require Import Machin.
From Stdlib Require Floats.
Import ListNotations.

Open Scope R_scope.

Set Warnings "-inexact-float".

(* ================================================================== *)
(** ** JavaScript numbers *)

Module JS.

Inductive number : Type :=
| Fin (r : R)
| Infinity
| NegInfinity
| NaN.

(** Sign of a real, decided by the total order of [R]. *)
Definition sign (r : R) : comparison :=
  match total_order_T r 0 with
  | inleft (left _) => Lt
  | inleft (right _) => Eq
  | inright _ => Gt
  end.

Definition Rleb (x y : R) : bool := if Rle_dec x y then true else false.
Definition Reqb (x y : R) : bool := if Req_dec_T x y then true else false.

(** [a <= b] *)
Definition le (a b : number) : bool :=
  match a, b with
  | NaN, _ | _, NaN => false
  | NegInfinity, _ => true
  | _, Infinity => true
  | Fin x, Fin y => Rleb x y
  | Fin _, NegInfinity => false
  | Infinity, _ => false
  end.

(** [a >= b] *)
Definition ge (a b : number) : bool := le b a.

(** [a === b] on numbers *)
Definition strict_eq (a b : number) : bool :=
  match a, b with
  | Fin x, Fin y => Reqb x y
  | Infinity, Infinity => true
  | NegInfinity, NegInfinity => true
  | _, _ => false
  end.

Definition neg (a : number) : number :=
  match a with
  | Fin x => Fin (- x)
  | Infinity => NegInfinity
  | NegInfinity => Infinity
  | NaN => NaN
  end.

(** An infinity scaled by the sign of the other operand. *)
Definition inf_signed (s : comparison) : number :=
  match s with
  | Gt => Infinity
  | Lt => NegInfinity
  | Eq => NaN
  end.

Definition add (a b : number) : number :=
  match a, b with
  | NaN, _ | _, NaN => NaN
  | Fin x, Fin y => Fin (x + y)
  | Infinity, NegInfinity | NegInfinity, Infinity => NaN
  | Infinity, _ | _, Infinity => Infinity
  | NegInfinity, _ | _, NegInfinity => NegInfinity
  end.

Definition sub (a b : number) : number := add a (neg b).

Definition mul (a b : number) : number :=
  match a, b with
  | NaN, _ | _, NaN => NaN
  | Fin x, Fin y => Fin (x * y)
  | Infinity, Fin y => inf_signed (sign y)
  | Fin x, Infinity => inf_signed (sign x)
  | NegInfinity, Fin y => neg (inf_signed (sign y))
  | Fin x, NegInfinity => neg (inf_signed (sign x))
  | Infinity, Infinity | NegInfinity, NegInfinity => Infinity
  | Infinity, NegInfinity | NegInfinity, Infinity => NegInfinity
  end.

(** Division; a finite number over zero gives the infinity of the sign of the
    numerator, and [0/0] is NaN. *)
Definition div (a b : number) : number :=
  match a, b with
  | NaN, _ | _, NaN => NaN
  | Fin x, Fin y =>
      match sign y with
      | Eq => inf_signed (sign x)
      | _ => Fin (x / y)
      end
  | Fin _, Infinity | Fin _, NegInfinity => Fin 0
  | Infinity, Fin y =>
      match sign y with Lt => NegInfinity | _ => Infinity end
  | NegInfinity, Fin y =>
      match sign y with Lt => Infinity | _ => NegInfinity end
  | _, _ => NaN
  end.

(** [Math.min] and [Math.max]: NaN if an argument is NaN. *)
Definition min (a b : number) : number :=
  match a, b with
  | NaN, _ | _, NaN => NaN
  | _, _ => if le a b then a else b
  end.

Definition max (a b : number) : number :=
  match a, b with
  | NaN, _ | _, NaN => NaN
  | _, _ => if le a b then b else a
  end.

(** [Math.log] *)
Definition log (a : number) : number :=
  match a with
  | Fin x =>
      match sign x with
      | Gt => Fin (ln x)
      | Eq => NegInfinity
      | Lt => NaN
      end
  | Infinity => Infinity
  | NegInfinity | NaN => NaN
  end.

(** [Math.PI] *)
Definition PI : number := Fin Rtrigo1.PI.

(** Truthiness of a number, as used by [||]: zero and NaN are falsy. *)
Definition truthy (a : number) : bool :=
  match a with
  | Fin x => negb (Reqb x 0)
  | NaN => false
  | _ => true
  end.

(** [o[k] || d] for an object [o] whose own properties are numbers. *)
Definition or_default (v : option number) (d : number) : number :=
  match v with
  | Some x => if truthy x then x else d
  | None => d
  end.

Definition is_finite (a : number) : Prop := exists r, a = Fin r.

(** The names every object literal inherits from [Object.prototype]. *)
Definition Object_prototype : list string :=
  ["constructor"; "__defineGetter__"; "__defineSetter__"; "hasOwnProperty";
   "__lookupGetter__"; "__lookupSetter__"; "isPrototypeOf";
   "propertyIsEnumerable"; "toString"; "valueOf"; "__proto__";
   "toLocaleString"]%string.

(** What a property read [o[k]] finds in an object literal: an own property,
    a property inherited from [Object.prototype] (each of them a function or
    an object), or nothing. *)
Inductive Property (A : Type) : Type :=
| Own (v : A)
| Inherited
| Absent.

Arguments Own {A} v.
Arguments Inherited {A}.
Arguments Absent {A}.

(** [o[k] || d] where the result is only used in arithmetic: an inherited
    function or object is truthy, so it is kept, and it is NaN as a number. *)
Definition property_or (p : Property number) (d : number) : number :=
  match p with
  | Own x => or_default (Some x) d
  | Inherited => NaN
  | Absent => or_default None d
  end.

End JS.

Import JS.

Declare Scope js_scope.
Delimit Scope js_scope with js.
Bind Scope js_scope with number.
Notation "a + b" := (add a b) : js_scope.
Notation "a - b" := (sub a b) : js_scope.
Notation "a * b" := (mul a b) : js_scope.
Notation "a / b" := (div a b) : js_scope.
Notation "a <=? b" := (le a b) (at level 70) : js_scope.
Notation "a >=? b" := (ge a b) (at level 70) : js_scope.
Notation "a === b" := (strict_eq a b) (at level 70) : js_scope.

(** Numeric literals of the source, as exact decimals. *)
Coercion Fin : R >-> number.

(* ================================================================== *)
(** ** groundMath.js *)

Module GroundMath.

Open Scope string_scope.

(** [SOIL_RESISTIVITY]: the object literal, as its list of own properties. *)
Definition SOIL_RESISTIVITY : list (string * number) :=
  [ ("wet", Fin 10); ("clay", Fin 40); ("loam", Fin 100); ("sandy", Fin 200);
    ("gravel", Fin 400); ("rocky", Fin 1000); ("dry", Fin 1500) ].

(** Lookup among the own properties of an object literal. *)
Fixpoint lookup {A : Type} (o : list (string * A)) (k : string) : option A :=
  match o with
  | [] => None
  | (k', v) :: o' => if String.eqb k k' then Some v else lookup o' k
  end.

(** The property read [o[k]]: own properties first, then the prototype. *)
Definition get {A : Type} (o : list (string * A)) (k : string) : Property A :=
  match lookup o k with
  | Some v => Own v
  | None =>
      if existsb (String.eqb k) Object_prototype then Inherited else Absent
  end.

Definition getCouplingFactor (spacing length : number) : number :=
  let ratio := (spacing / length)%js in
  if (ratio >=? Fin 2)%js then Fin 0
  else if (ratio >=? Fin 1.5)%js then Fin 0.1
  else if (ratio >=? Fin 1)%js then Fin 0.2
  else if (ratio >=? Fin 0.7)%js then Fin 0.35
  else if (ratio >=? Fin 0.5)%js then Fin 0.5
  else Fin 0.7.

Definition calculateSingleRodResistance (resistivity length diameter : number)
  : number :=
  if (length <=? Fin 0)%js || (diameter <=? Fin 0)%js then Infinity
  else
    let R := ((resistivity / (Fin 2 * JS.PI * length))
              * log ((Fin 4 * length) / diameter))%js in
    R.

Definition calculateParallelResistance
  (singleRodResistance rodCount couplingFactor : number) : number :=
  if (rodCount <=? Fin 0)%js then Infinity
  else if (rodCount === Fin 1)%js then singleRodResistance
  else
    let Rt := ((singleRodResistance / rodCount)
               * (Fin 1 + couplingFactor * (rodCount - Fin 1)))%js in
    Rt.

Definition calculateRadialContribution
  (baseResistance radialCount radialLength : number) : number :=
  if (radialCount === Fin 0)%js || (radialLength === Fin 0)%js then Fin 1
  else
    let reductionFactor :=
      JS.min (Fin 0.4) (radialCount * radialLength * Fin 0.005)%js in
    (Fin 1 - reductionFactor)%js.

(** The weather factor selected by the [switch]; the [default] arm and the
    [sunny] arm both give 1. *)
Definition weatherFactor (weather : string) : number :=
  if String.eqb weather "rain" then Fin 0.5
  else if String.eqb weather "storm" then Fin 0.3
  else if String.eqb weather "snow" then Fin 1.2
  else if String.eqb weather "sunny" then Fin 1
  else Fin 1.

(** The default [humidity = 0.5] of the signature is not used by any caller:
    [calculate] always passes the argument. *)
Definition adjustResistivityForWeather
  (baseResistivity : number) (weather : string) (humidity : number) : number :=
  let factor := weatherFactor weather in
  let factor := (factor * (Fin 1 - humidity * Fin 0.3))%js in
  (baseResistivity * factor)%js.

(** Likewise [calculate] always passes [targetResistance]. *)
Definition calculateEfficiency (resistance targetResistance : number) : number :=
  if (resistance <=? Fin 0)%js then Fin 100
  else if (resistance >=? targetResistance * Fin 10)%js then Fin 0
  else
    let efficiency :=
      JS.max (Fin 0)
        (JS.min (Fin 100)
           ((Fin 1 - (resistance - targetResistance) / (targetResistance * Fin 9))
            * Fin 100)%js) in
    efficiency.

Definition calculateFaultCurrent (voltage resistance : number) : number :=
  if (resistance <=? Fin 0)%js then Fin 0
  else (voltage / resistance)%js.

Record SystemStatus : Type := mkStatus {
  status : string;
  color : string;
  message : string
}.

Definition getSystemStatus (resistance : number) : SystemStatus :=
  if (resistance <=? Fin 5)%js then
    mkStatus "excellent" "#00ff88" "Excelente"
  else if (resistance <=? Fin 10)%js then
    mkStatus "good" "#88ff00" "Bueno"
  else if (resistance <=? Fin 25)%js then
    mkStatus "warning" "#ffaa00" "Advertencia"
  else
    mkStatus "danger" "#ff4444" "Peligro".

(** *** The parameter holder [GroundingSystem] *)

Record GroundingSystem : Type := mkGroundingSystem {
  rodCount : number;
  rodLength : number;
  rodDiameter : number;
  rodSpacing : number;
  radialCount : number;
  radialLength : number;
  soilType : string;
  weather : string;
  humidity : number;
  faultVoltage : number;
  targetResistance : number
}.

(** [new GroundingSystem()] *)
Definition constructor : GroundingSystem :=
  {| rodCount := Fin 4;
     rodLength := Fin 2.4;
     rodDiameter := Fin 0.016;
     rodSpacing := Fin 3;
     radialCount := Fin 8;
     radialLength := Fin 5;
     soilType := "clay";
     weather := "sunny";
     humidity := Fin 0.5;
     faultVoltage := Fin 220;
     targetResistance := Fin 5 |}.

Record GroundingMetrics : Type := mkMetrics {
  resistivity : number;
  singleRodResistance : number;
  couplingFactor : number;
  totalResistance : number;
  efficiency : number;
  faultCurrent : number;
  systemStatus : SystemStatus
}.

(** A method body runs against the receiver [this] and hands the receiver
    back: reading a field leaves it unchanged, an assignment to a field
    replaces it. *)
Definition Method (S A : Type) : Type := S -> A * S.

Definition ret {S A} (a : A) : Method S A := fun this => (a, this).
Definition bind {S A B} (m : Method S A) (k : A -> Method S B) : Method S B :=
  fun this => let (a, this') := m this in k a this'.
Definition read {S A} (field : S -> A) : Method S A :=
  fun this => (field this, this).
Definition assign {S} (update : S -> S) : Method S unit :=
  fun this => (tt, update this).

Notation "x <- m ;; k" := (bind m (fun x => k))
  (at level 61, m at next level, right associativity).
Notation "m ;;; k" := (bind m (fun _ => k))
  (at level 61, right associativity).

(** [GroundingSystem.prototype.calculate] *)
Definition calculate : Method GroundingSystem GroundingMetrics :=
  this_soilType <- read soilType ;;
  let resistivity := property_or (get SOIL_RESISTIVITY this_soilType) (Fin 100) in
  this_weather <- read weather ;;
  this_humidity <- read humidity ;;
  let resistivity :=
    adjustResistivityForWeather resistivity this_weather this_humidity in
  this_rodLength <- read rodLength ;;
  this_rodDiameter <- read rodDiameter ;;
  let singleRodR :=
    calculateSingleRodResistance resistivity this_rodLength this_rodDiameter in
  this_rodSpacing <- read rodSpacing ;;
  this_rodLength <- read rodLength ;;
  let coupling := getCouplingFactor this_rodSpacing this_rodLength in
  this_rodCount <- read rodCount ;;
  let totalR := calculateParallelResistance singleRodR this_rodCount coupling in
  this_radialCount <- read radialCount ;;
  this_radialLength <- read radialLength ;;
  let radialFactor :=
    calculateRadialContribution totalR this_radialCount this_radialLength in
  let totalR := (totalR * radialFactor)%js in
  this_targetResistance <- read targetResistance ;;
  let efficiency := calculateEfficiency totalR this_targetResistance in
  this_faultVoltage <- read faultVoltage ;;
  let faultCurrent := calculateFaultCurrent this_faultVoltage totalR in
  let status := getSystemStatus totalR in
  ret {| resistivity := resistivity;
         singleRodResistance := singleRodR;
         couplingFactor := coupling;
         totalResistance := totalR;
         efficiency := efficiency;
         faultCurrent := faultCurrent;
         systemStatus := status |}.

(** The metrics snapshot returned by a call, and the receiver after it. *)
Definition metrics_of (g : GroundingSystem) : GroundingMetrics := fst (calculate g).
Definition after_calculate (g : GroundingSystem) : GroundingSystem :=
  snd (calculate g).

(** Intermediate values of [calculate], named as its local variables. *)
Definition baseResistivity (g : GroundingSystem) : number :=
  property_or (get SOIL_RESISTIVITY (soilType g)) (Fin 100).

Definition parallelResistance (g : GroundingSystem) : number :=
  calculateParallelResistance
    (singleRodResistance (metrics_of g)) (rodCount g)
    (couplingFactor (metrics_of g)).

Definition radialFactor (g : GroundingSystem) : number :=
  calculateRadialContribution (parallelResistance g)
    (radialCount g) (radialLength g).

(** The soil categories are the keys of the resistivity table. *)
Definition soilCategories : list string := map fst SOIL_RESISTIVITY.

(** A method is read-only when every call hands back the receiver it got. *)
Definition read_only {S A} (m : Method S A) : Prop :=
  forall this, snd (m this) = this.

End GroundMath.

(* ================================================================== *)
(** ** terrain.js: the part of [Terrain] written by the handlers *)

Module Terrain.

Open Scope string_scope.

Record Terrain : Type := mkTerrain {
  currentSoilType : string;
  editMode : bool;
  brushSize : number;
  brushStrength : number;
  brushMode : string;
  humidity : number
}.

(** Keys of [this.soilTypes]; each holds an object (colour and name). *)
Definition soilTypes : list string :=
  ["wet"; "clay"; "loam"; "sandy"; "gravel"; "rocky"; "dry"].

(** Truthiness of [this.soilTypes[type]]: the own entries are objects, and so
    is whatever the prototype answers for. *)
Definition knownSoil (type : string) : bool :=
  existsb (String.eqb type) soilTypes
  || existsb (String.eqb type) Object_prototype.

Definition constructor : Terrain :=
  {| currentSoilType := "clay";
     editMode := false;
     brushSize := Fin 3;
     brushStrength := Fin 0.5;
     brushMode := "raise";
     humidity := Fin 0.5 |}.

Definition setSoilType (type : string) (this : Terrain) : Terrain :=
  if knownSoil type then
    {| currentSoilType := type;
       editMode := editMode this;
       brushSize := brushSize this;
       brushStrength := brushStrength this;
       brushMode := brushMode this;
       humidity := humidity this |}
  else this.

Definition setHumidity (value : number) (this : Terrain) : Terrain :=
  {| currentSoilType := currentSoilType this;
     editMode := editMode this;
     brushSize := brushSize this;
     brushStrength := brushStrength this;
     brushMode := brushMode this;
     humidity := JS.max (Fin 0) (JS.min (Fin 1) value) |}.

Definition setEditMode (enabled : bool) (this : Terrain) : Terrain :=
  {| currentSoilType := currentSoilType this;
     editMode := enabled;
     brushSize := brushSize this;
     brushStrength := brushStrength this;
     brushMode := brushMode this;
     humidity := humidity this |}.

Definition setBrushSize (size : number) (this : Terrain) : Terrain :=
  {| currentSoilType := currentSoilType this;
     editMode := editMode this;
     brushSize := size;
     brushStrength := brushStrength this;
     brushMode := brushMode this;
     humidity := humidity this |}.

Definition setBrushStrength (strength : number) (this : Terrain) : Terrain :=
  {| currentSoilType := currentSoilType this;
     editMode := editMode this;
     brushSize := brushSize this;
     brushStrength := strength;
     brushMode := brushMode this;
     humidity := humidity this |}.

Definition setBrushMode (mode : string) (this : Terrain) : Terrain :=
  {| currentSoilType := currentSoilType this;
     editMode := editMode this;
     brushSize := brushSize this;
     brushStrength := brushStrength this;
     brushMode := mode;
     humidity := humidity this |}.

End Terrain.

(* ================================================================== *)
(** ** climate.js: weather state of [ClimateSystem] *)

Module Climate.

Open Scope string_scope.

Record ClimateSystem : Type := mkClimate {
  weather : string;
  timeOfDay : number;
  humidity : number
}.

Definition constructor : ClimateSystem :=
  {| weather := "sunny"; timeOfDay := Fin 0.5; humidity := Fin 0.5 |}.

(** [setWeather]: the humidity preset chosen by the [switch]; the particle
    systems, fog and sky colours it also sets are rendering state. *)
Definition setWeather (w : string) (this : ClimateSystem) : ClimateSystem :=
  let humidity' :=
    if String.eqb w "rain" then Fin 0.9
    else if String.eqb w "snow" then Fin 0.7
    else if String.eqb w "storm" then Fin 1.0
    else Fin 0.3 in
  {| weather := w; timeOfDay := timeOfDay this; humidity := humidity' |}.

Definition setTimeOfDay (time : number) (this : ClimateSystem) : ClimateSystem :=
  {| weather := weather this;
     timeOfDay := JS.max (Fin 0) (JS.min (Fin 1) time);
     humidity := humidity this |}.

Definition getHumidity (this : ClimateSystem) : number := humidity this.

End Climate.

(* ================================================================== *)
(** ** main.js: the handlers that write the grounding configuration *)

Module Main.

Import GroundMath.

Record GroundingSimulator : Type := mkSimulator {
  terrain : Terrain.Terrain;
  climate : Climate.ClimateSystem;
  groundingSystem : GroundingSystem;
  isEditing : bool
}.

(** [setupSystems] *)
Definition setupSystems : GroundingSimulator :=
  {| terrain := Terrain.constructor;
     climate := Climate.constructor;
     groundingSystem := GroundMath.constructor;
     isEditing := false |}.

Definition on_terrain (f : Terrain.Terrain -> Terrain.Terrain)
  : Method GroundingSimulator unit :=
  assign (fun this =>
    {| terrain := f (terrain this); climate := climate this;
       groundingSystem := groundingSystem this; isEditing := isEditing this |}).

Definition on_climate (f : Climate.ClimateSystem -> Climate.ClimateSystem)
  : Method GroundingSimulator unit :=
  assign (fun this =>
    {| terrain := terrain this; climate := f (climate this);
       groundingSystem := groundingSystem this; isEditing := isEditing this |}).

Definition on_groundingSystem (f : GroundingSystem -> GroundingSystem)
  : Method GroundingSimulator unit :=
  assign (fun this =>
    {| terrain := terrain this; climate := climate this;
       groundingSystem := f (groundingSystem this);
       isEditing := isEditing this |}).

Definition set_isEditing (b : bool) : Method GroundingSimulator unit :=
  assign (fun this =>
    {| terrain := terrain this; climate := climate this;
       groundingSystem := groundingSystem this; isEditing := b |}).

(** Field assignments [this.groundingSystem.f = value]. *)
Definition set_soilType (v : string) (g : GroundingSystem) : GroundingSystem :=
  {| rodCount := rodCount g; rodLength := rodLength g;
     rodDiameter := rodDiameter g; rodSpacing := rodSpacing g;
     radialCount := radialCount g; radialLength := radialLength g;
     soilType := v; weather := weather g; humidity := humidity g;
     faultVoltage := faultVoltage g; targetResistance := targetResistance g |}.

Definition set_weather (v : string) (g : GroundingSystem) : GroundingSystem :=
  {| rodCount := rodCount g; rodLength := rodLength g;
     rodDiameter := rodDiameter g; rodSpacing := rodSpacing g;
     radialCount := radialCount g; radialLength := radialLength g;
     soilType := soilType g; weather := v; humidity := humidity g;
     faultVoltage := faultVoltage g; targetResistance := targetResistance g |}.

Definition set_humidity (v : number) (g : GroundingSystem) : GroundingSystem :=
  {| rodCount := rodCount g; rodLength := rodLength g;
     rodDiameter := rodDiameter g; rodSpacing := rodSpacing g;
     radialCount := radialCount g; radialLength := radialLength g;
     soilType := soilType g; weather := weather g; humidity := v;
     faultVoltage := faultVoltage g; targetResistance := targetResistance g |}.

(** [updateCalculations]: runs [calculate] on the grounding system and hands
    the metrics to the display and the flow animation. *)
Definition updateCalculations : Method GroundingSimulator GroundingMetrics :=
  fun this =>
    let (metrics, g') := calculate (groundingSystem this) in
    (metrics,
     {| terrain := terrain this; climate := climate this;
        groundingSystem := g'; isEditing := isEditing this |}).

(** The [(param, value)] pairs the terrain panel sends.  The handlers below
    keep the writes to the terrain, the climate and the grounding system;
    the status bar, the mode indicator and the panel's own copy of the
    parameters are display state and are left out. *)
Inductive TerrainChange : Type :=
| soilType_change (value : string)
| humidity_change (value : number)
| editMode_change (value : bool)
| brushMode_change (value : string)
| brushSize_change (value : number)
| brushStrength_change (value : number).

Definition handleTerrainChange (change : TerrainChange)
  : Method GroundingSimulator GroundingMetrics :=
  match change with
  | soilType_change value =>
      on_terrain (Terrain.setSoilType value) ;;;
      on_groundingSystem (set_soilType value)
  | humidity_change value =>
      on_terrain (Terrain.setHumidity value) ;;;
      on_groundingSystem (set_humidity value)
  | editMode_change value =>
      set_isEditing value ;;;
      on_terrain (Terrain.setEditMode value)
  | brushMode_change value => on_terrain (Terrain.setBrushMode value)
  | brushSize_change value => on_terrain (Terrain.setBrushSize value)
  | brushStrength_change value => on_terrain (Terrain.setBrushStrength value)
  end ;;;
  updateCalculations.

(** The [(param, value)] pairs the climate panel sends. *)
Inductive ClimateChange : Type :=
| weather_change (value : string)
| timeOfDay_change (value : number).

Definition handleClimateChange (change : ClimateChange)
  : Method GroundingSimulator GroundingMetrics :=
  match change with
  | weather_change value =>
      on_climate (Climate.setWeather value) ;;;
      on_groundingSystem (set_weather value) ;;;
      humidity <- read (fun this => Climate.getHumidity (climate this)) ;;
      on_terrain (Terrain.setHumidity humidity) ;;;
      on_groundingSystem (set_humidity humidity)
  | timeOfDay_change value => on_climate (Climate.setTimeOfDay value)
  end ;;;
  updateCalculations.

End Main.

(* ================================================================== *)
(** ** Reference definitions the engine is compared with *)

Module Spec.

(** The table of the coupling factor against the ratio spacing/length. *)
Definition couplingTable (ratio k : R) : Prop :=
  (2 <= ratio /\ k = 0) \/
  (1.5 <= ratio < 2 /\ k = 0.1) \/
  (1 <= ratio < 1.5 /\ k = 0.2) \/
  (0.7 <= ratio < 1 /\ k = 0.35) \/
  (0.5 <= ratio < 0.7 /\ k = 0.5) \/
  (ratio < 0.5 /\ k = 0.7).


(** The value of [calculateEfficiency] on finite arguments. *)
Definition efficiencyValue (r t : R) : R :=
  if Rle_dec r 0 then 100
  else if Rle_dec (t * 10) r then 0
  else Rmax 0 (Rmin 100 ((1 - (r - t) / (t * 9)) * 100)).

(** A number of the closed interval [0,1]. *)
Definition in_unit_interval (x : number) : Prop :=
  exists r : R, x = Fin r /\ 0 <= r <= 1.

(** A list of lower bounds, each at most the square of the one before. *)
Fixpoint squares_down (c : R) (cs : list R) : Prop :=
  match cs with
  | [] => True
  | c' :: cs' => 0 <= c' <= c * c /\ squares_down c' cs'
  end.

Fixpoint chain_end (c : R) (cs : list R) : R :=
  match cs with
  | [] => c
  | c' :: cs' => chain_end c' cs'
  end.

(** Fifteen squarings from 1 + 6.398/2^15, each rounded down. *)
Definition chain_up : list R :=
  [1.00039054105282; 1.00078123462795; 1.00156307958344; 1.00312860238466;
   1.00626699292220; 1.01257326104468; 1.02530460898265; 1.05124954120106;
   1.10512559787543; 1.22130258707952; 1.49158000920712; 2.22481092386631;
   4.94978364695486; 24.50035815166175; 600.26754955969836].

(** Fifteen squarings from 1 - 6.396/2^15, each rounded down. *)
Definition chain_down : list R :=
  [0.99960965723992; 0.99921946684731; 0.99843954292662; 0.99688152087951;
   0.99377276667104; 0.98758431177701; 0.97532277286807; 0.95125451127506;
   0.90488514522115; 0.81881712604190; 0.67046148589951; 0.44951860407457;
   0.20206697540915; 0.04083106255100; 0.00166717566904].

End Spec.

Import Spec.

(* ================================================================== *)
(** ** More of the JavaScript number library *)

Module JSMath.

Definition Rltb (x y : R) : bool := if Rlt_dec x y then true else false.

(** [a < b] *)
Definition lt (a b : number) : bool :=
  match a, b with
  | NaN, _ | _, NaN => false
  | Fin x, Fin y => Rltb x y
  | NegInfinity, NegInfinity => false
  | NegInfinity, _ => true
  | Infinity, _ => false
  | Fin _, Infinity => true
  | Fin _, NegInfinity => false
  end.

(** [a > b] *)
Definition gt (a b : number) : bool := lt b a.



(** [Math.sin]: NaN outside the finite numbers. *)
Definition sin (a : number) : number :=
  match a with
  | Fin x => Fin (Rtrigo_def.sin x)
  | _ => NaN
  end.

End JSMath.

(* ================================================================== *)
(** ** utils.js *)

Module Utils.

Definition clamp (value min max : number) : number :=
  JS.max min (JS.min max value).


Definition mapRange (value inMin inMax outMin outMax : number) : number :=
  (outMin + (outMax - outMin) * ((value - inMin) / (inMax - inMin)))%js.


End Utils.

(* ================================================================== *)
(** ** three.js: the vectors read by the height lookup *)

Module Three.


End Three.

(* ================================================================== *)
(** ** currentFlow.js: colours and intensity of the flow animation *)

Module CurrentFlow.

(** The flow parameters and colours; the tube meshes, the particle system
    and the animation clock are scene state. *)
Record CurrentFlowSystem : Type := mkCurrentFlow {
  intensity : number;
  flowSpeed : number;
  highIntensityColor : Z;
  lowIntensityColor : Z;
  isActive : bool
}.

Definition constructor : CurrentFlowSystem :=
  {| intensity := Fin 1.0;
     flowSpeed := Fin 1.0;
     highIntensityColor := 0xffff00%Z;
     lowIntensityColor := 0x00ff88%Z;
     isActive := true |}.

Definition setIntensity (value : number) (this : CurrentFlowSystem)
  : CurrentFlowSystem :=
  {| intensity := JS.max (Fin 0) (JS.min (Fin 2) value);
     flowSpeed := flowSpeed this;
     highIntensityColor := highIntensityColor this;
     lowIntensityColor := lowIntensityColor this;
     isActive := isActive this |}.

Definition setColors (high low : Z) (this : CurrentFlowSystem)
  : CurrentFlowSystem :=
  {| intensity := intensity this;
     flowSpeed := flowSpeed this;
     highIntensityColor := high;
     lowIntensityColor := low;
     isActive := isActive this |}.

Definition updateColors (resistance : number) (this : CurrentFlowSystem)
  : CurrentFlowSystem :=
  if (resistance <=? Fin 5)%js then setColors 0x00ff00%Z 0x00ff88%Z this
  else if (resistance <=? Fin 10)%js then setColors 0xffff00%Z 0x88ff00%Z this
  else if (resistance <=? Fin 25)%js then setColors 0xffaa00%Z 0xffff00%Z this
  else setColors 0xff4400%Z 0xff8800%Z this.

End CurrentFlow.

(* ================================================================== *)
(** ** ui.js: what the display derives from the metrics *)

Module UI.

Import GroundMath.
Open Scope string_scope.

(** The class suffix [effClass] of the efficiency badge in
    [updateMetricsDisplay]. *)
Definition effClass (metrics : GroundingMetrics) : string :=
  if (efficiency metrics >=? Fin 80)%js then ""
  else if (efficiency metrics >=? Fin 50)%js then "warning"
  else "danger".

(** The class suffix of the resistance badge: the status tag. *)
Definition resistanceClass (metrics : GroundingMetrics) : string :=
  status (systemStatus metrics).

(** [isDay] of [updateStatusBar]. *)
Definition isDay (timeOfDay : number) : bool :=
  JSMath.gt timeOfDay (Fin 0.2) && JSMath.lt timeOfDay (Fin 0.8).

End UI.

(* ================================================================== *)
(** ** climate.js: lighting set by the time of day *)

Module ClimateLights.

Record Lights : Type := mkLights {
  sunIntensity : number;
  sunColor : Z;
  moonVisible : bool;
  ambientIntensity : number
}.

Definition getSunColor (time : number) : Z :=
  if JSMath.lt time (Fin 0.3) || JSMath.gt time (Fin 0.7) then 0xffaa55%Z
  else if JSMath.lt time (Fin 0.4) || JSMath.gt time (Fin 0.6) then 0xffffaa%Z
  else 0xffffee%Z.

(** The part of [setTimeOfDay] after the clamped time has been stored:
    [timeOfDay] is the stored value. *)
Definition applyTimeOfDay (timeOfDay : number) (lights : Lights) : Lights :=
  let isDaytime := JSMath.gt timeOfDay (Fin 0.2) && JSMath.lt timeOfDay (Fin 0.8) in
  if isDaytime then
    let dayIntensity := JSMath.sin (timeOfDay * JS.PI)%js in
    {| sunIntensity := (dayIntensity * Fin 1.5)%js;
       sunColor := getSunColor timeOfDay;
       moonVisible := false;
       ambientIntensity := (Fin 0.3 + dayIntensity * Fin 0.3)%js |}
  else
    {| sunIntensity := Fin 0.1;
       sunColor := sunColor lights;
       moonVisible := true;
       ambientIntensity := Fin 0.15 |}.

(** [setTimeOfDay] on the climate state and its lights together. *)
Definition setTimeOfDay (time : number)
  (this : Climate.ClimateSystem * Lights) : Climate.ClimateSystem * Lights :=
  let climate := Climate.setTimeOfDay time (fst this) in
  (climate, applyTimeOfDay (Climate.timeOfDay climate) (snd this)).

End ClimateLights.

(* ================================================================== *)
(** ** terrain.js: height lookup *)

Module TerrainGeometry.

Import Three.



End TerrainGeometry.

(* ================================================================== *)
(** ** main.js: the fields the antenna panel writes *)

Module App.

Import GroundMath.

(** Field assignments [this.groundingSystem.f = value] of
    [handleAntennaChange]; the rebuild of the antenna meshes and of the flow
    lines that surrounds them is scene state of three.js. *)
Definition set_radialCount (v : number) (g : GroundingSystem) : GroundingSystem :=
  {| rodCount := rodCount g; rodLength := rodLength g;
     rodDiameter := rodDiameter g; rodSpacing := rodSpacing g;
     radialCount := v; radialLength := radialLength g;
     soilType := soilType g; weather := weather g; humidity := humidity g;
     faultVoltage := faultVoltage g; targetResistance := targetResistance g |}.

Definition set_radialLength (v : number) (g : GroundingSystem) : GroundingSystem :=
  {| rodCount := rodCount g; rodLength := rodLength g;
     rodDiameter := rodDiameter g; rodSpacing := rodSpacing g;
     radialCount := radialCount g; radialLength := v;
     soilType := soilType g; weather := weather g; humidity := humidity g;
     faultVoltage := faultVoltage g; targetResistance := targetResistance g |}.

Definition set_rodCount (v : number) (g : GroundingSystem) : GroundingSystem :=
  {| rodCount := v; rodLength := rodLength g;
     rodDiameter := rodDiameter g; rodSpacing := rodSpacing g;
     radialCount := radialCount g; radialLength := radialLength g;
     soilType := soilType g; weather := weather g; humidity := humidity g;
     faultVoltage := faultVoltage g; targetResistance := targetResistance g |}.

Definition set_rodLength (v : number) (g : GroundingSystem) : GroundingSystem :=
  {| rodCount := rodCount g; rodLength := v;
     rodDiameter := rodDiameter g; rodSpacing := rodSpacing g;
     radialCount := radialCount g; radialLength := radialLength g;
     soilType := soilType g; weather := weather g; humidity := humidity g;
     faultVoltage := faultVoltage g; targetResistance := targetResistance g |}.

Definition set_rodSpacing (v : number) (g : GroundingSystem) : GroundingSystem :=
  {| rodCount := rodCount g; rodLength := rodLength g;
     rodDiameter := rodDiameter g; rodSpacing := v;
     radialCount := radialCount g; radialLength := radialLength g;
     soilType := soilType g; weather := weather g; humidity := humidity g;
     faultVoltage := faultVoltage g; targetResistance := targetResistance g |}.

End App.

(* ================================================================== *)
(** ** main.js: a session of terrain and climate changes *)

Module Session.

Import GroundMath Main.

(** The changes of the terrain and climate panels, as they arrive. *)
Inductive Event : Type :=
| TerrainEvent (change : TerrainChange)
| ClimateEvent (change : ClimateChange).

Definition handle (e : Event) : Method GroundingSimulator GroundingMetrics :=
  match e with
  | TerrainEvent change => handleTerrainChange change
  | ClimateEvent change => handleClimateChange change
  end.

(** The state after the handlers have run on the events in order. *)
Fixpoint run (events : list Event) (this : GroundingSimulator)
  : GroundingSimulator :=
  match events with
  | [] => this
  | e :: events' => run events' (snd (handle e this))
  end.

(** The copies of one parameter that different objects keep agree. *)
Record Synchronized (this : GroundingSimulator) : Prop := mkSynchronized {
  same_weather : Climate.weather (climate this) = weather (groundingSystem this);
  clamped_humidity :
    Terrain.humidity (terrain this)
    = JS.max (Fin 0) (JS.min (Fin 1) (humidity (groundingSystem this)));
  same_editMode : Terrain.editMode (terrain this) = isEditing this;
  known_soil : Terrain.knownSoil (Terrain.currentSoilType (terrain this)) = true;
  same_soil :
    Terrain.knownSoil (soilType (groundingSystem this)) = true ->
    Terrain.currentSoilType (terrain this) = soilType (groundingSystem this)
}.

(** The fields of the grounding system that belong to the antenna panel and
    to the constructor. *)
Definition rods (g : GroundingSystem)
  : number * number * number * number * number * number * number * number :=
  (rodCount g, rodLength g, rodDiameter g, rodSpacing g,
   radialCount g, radialLength g, faultVoltage g, targetResistance g).

End Session.

(* ================================================================== *)
(** ** The four status classes, in order *)

Module StatusTable.

Open Scope string_scope.

(** Rank of a status tag, from best to worst; an unknown tag ranks last. *)
Definition severity (status : string) : nat :=
  if String.eqb status "excellent" then 0
  else if String.eqb status "good" then 1
  else if String.eqb status "warning" then 2
  else 3.

(** The colour pairs of [CurrentFlowSystem.updateColors], by the status the
    source comments name beside them. *)
Definition flowColours (status : string) : Z * Z :=
  if String.eqb status "excellent" then (0x00ff00%Z, 0x00ff88%Z)
  else if String.eqb status "good" then (0xffff00%Z, 0x88ff00%Z)
  else if String.eqb status "warning" then (0xffaa00%Z, 0xffff00%Z)
  else (0xff4400%Z, 0xff8800%Z).

End StatusTable.

(* ================================================================== *)
(** ** Configurations a user can mean *)

Module Domain.

Import GroundMath.

(** A configuration of sensible physical values: at least one rod (a whole
    number of them), positive rod length, diameter and spacing with the rod
    thinner than four times its length, non-negative radial count and length,
    a soil of the table, humidity in [0,1], positive fault voltage and
    target. *)
Record WellFormed (g : GroundingSystem) : Prop := mkWellFormed {
  wf_rodCount : exists n : Z, rodCount g = Fin (IZR n) /\ (1 <= n)%Z;
  wf_rod :
    exists L d : R,
      rodLength g = Fin L /\ rodDiameter g = Fin d /\ 0 < L /\ 0 < d < 4 * L;
  wf_rodSpacing : exists s : R, rodSpacing g = Fin s /\ 0 < s;
  wf_radialCount : exists c : R, radialCount g = Fin c /\ 0 <= c;
  wf_radialLength : exists l : R, radialLength g = Fin l /\ 0 <= l;
  wf_soilType : In (soilType g) soilCategories;
  wf_humidity : exists h : R, humidity g = Fin h /\ 0 <= h <= 1;
  wf_faultVoltage : exists V : R, faultVoltage g = Fin V /\ 0 < V;
  wf_targetResistance : exists t : R, targetResistance g = Fin t /\ 0 < t
}.




End Domain.

(* ================================================================== *)
(** ** groundMath.js over binary64 *)

Module B64.

Import PrimFloat.
Import GroundMath.

Local Open Scope string_scope.
Local Open Scope float_scope.

(** [Math.PI], the binary64 number nearest to pi. *)
Definition PI : float := 0x1.921fb54442d18p+1.

(** Truthiness of a number: the zeros and NaN are falsy. *)
Definition truthy (a : float) : bool := negb (is_nan a || is_zero a).

Definition property_or (p : Property float) (d : float) : float :=
  match p with
  | Own x => if truthy x then x else d
  | Inherited => nan
  | Absent => d
  end.

(** [Math.min] and [Math.max]: NaN if an argument is NaN, and -0 below +0. *)
Definition Math_min (a b : float) : float :=
  if is_nan a || is_nan b then nan
  else if a <? b then a
  else if b <? a then b
  else if get_sign a then a else b.

Definition Math_max (a b : float) : float :=
  if is_nan a || is_nan b then nan
  else if a <? b then b
  else if b <? a then a
  else if get_sign a then b else a.

(** [Math.log].  The language fixes the result at NaN, below zero, at the
    zeros, at 1 and at +Infinity; for every other argument it asks for an
    implementation-approximated logarithm, which is the argument [approx]. *)
Definition Math_log (approx : float -> float) (x : float) : float :=
  if is_nan x then nan
  else if x <? 0 then nan
  else if x =? 0 then neg_infinity
  else if x =? 1 then 0
  else if x =? infinity then infinity
  else approx x.

Definition SOIL_RESISTIVITY : list (string * float) :=
  [ ("wet", 10); ("clay", 40); ("loam", 100); ("sandy", 200);
    ("gravel", 400); ("rocky", 1000); ("dry", 1500) ].

Definition getCouplingFactor (spacing length : float) : float :=
  let ratio := spacing / length in
  if 2 <=? ratio then 0.0
  else if 1.5 <=? ratio then 0.1
  else if 1.0 <=? ratio then 0.2
  else if 0.7 <=? ratio then 0.35
  else if 0.5 <=? ratio then 0.5
  else 0.7.

Definition calculateSingleRodResistance
  (approx : float -> float) (resistivity length diameter : float) : float :=
  if (length <=? 0) || (diameter <=? 0) then infinity
  else
    let R := (resistivity / (2 * PI * length))
             * Math_log approx ((4 * length) / diameter) in
    R.

Definition calculateParallelResistance
  (singleRodResistance rodCount couplingFactor : float) : float :=
  if rodCount <=? 0 then infinity
  else if rodCount =? 1 then singleRodResistance
  else
    let Rt := (singleRodResistance / rodCount)
              * (1 + couplingFactor * (rodCount - 1)) in
    Rt.

Definition calculateRadialContribution
  (baseResistance radialCount radialLength : float) : float :=
  if (radialCount =? 0) || (radialLength =? 0) then 1
  else
    let reductionFactor := Math_min 0.4 (radialCount * radialLength * 0.005) in
    1 - reductionFactor.

Definition weatherFactor (weather : string) : float :=
  if String.eqb weather "rain" then 0.5
  else if String.eqb weather "storm" then 0.3
  else if String.eqb weather "snow" then 1.2
  else if String.eqb weather "sunny" then 1.0
  else 1.0.

Definition adjustResistivityForWeather
  (baseResistivity : float) (weather : string) (humidity : float) : float :=
  let factor := weatherFactor weather in
  let factor := factor * (1 - humidity * 0.3) in
  baseResistivity * factor.

Definition calculateEfficiency (resistance targetResistance : float) : float :=
  if resistance <=? 0 then 100
  else if targetResistance * 10 <=? resistance then 0
  else
    let efficiency :=
      Math_max 0
        (Math_min 100
           ((1 - (resistance - targetResistance) / (targetResistance * 9)) * 100)) in
    efficiency.

Definition calculateFaultCurrent (voltage resistance : float) : float :=
  if resistance <=? 0 then 0
  else voltage / resistance.

Definition getSystemStatus (resistance : float) : SystemStatus :=
  if resistance <=? 5 then
    mkStatus "excellent" "#00ff88" "Excelente"
  else if resistance <=? 10 then
    mkStatus "good" "#88ff00" "Bueno"
  else if resistance <=? 25 then
    mkStatus "warning" "#ffaa00" "Advertencia"
  else
    mkStatus "danger" "#ff4444" "Peligro".

Record GroundingSystem : Type := mkGroundingSystem {
  rodCount : float;
  rodLength : float;
  rodDiameter : float;
  rodSpacing : float;
  radialCount : float;
  radialLength : float;
  soilType : string;
  weather : string;
  humidity : float;
  faultVoltage : float;
  targetResistance : float
}.

(** [new GroundingSystem()] *)
Definition constructor : GroundingSystem :=
  {| rodCount := 4;
     rodLength := 2.4;
     rodDiameter := 0.016;
     rodSpacing := 3;
     radialCount := 8;
     radialLength := 5;
     soilType := "clay";
     weather := "sunny";
     humidity := 0.5;
     faultVoltage := 220;
     targetResistance := 5 |}.

Record GroundingMetrics : Type := mkMetrics {
  resistivity : float;
  singleRodResistance : float;
  couplingFactor : float;
  totalResistance : float;
  efficiency : float;
  faultCurrent : float;
  systemStatus : SystemStatus
}.

(** [GroundingSystem.prototype.calculate] *)
Definition calculate (approx : float -> float)
  : Method GroundingSystem GroundingMetrics :=
  this_soilType <- read soilType ;;
  let resistivity := property_or (get SOIL_RESISTIVITY this_soilType) 100 in
  this_weather <- read weather ;;
  this_humidity <- read humidity ;;
  let resistivity :=
    adjustResistivityForWeather resistivity this_weather this_humidity in
  this_rodLength <- read rodLength ;;
  this_rodDiameter <- read rodDiameter ;;
  let singleRodR :=
    calculateSingleRodResistance approx resistivity this_rodLength this_rodDiameter in
  this_rodSpacing <- read rodSpacing ;;
  this_rodLength <- read rodLength ;;
  let coupling := getCouplingFactor this_rodSpacing this_rodLength in
  this_rodCount <- read rodCount ;;
  let totalR := calculateParallelResistance singleRodR this_rodCount coupling in
  this_radialCount <- read radialCount ;;
  this_radialLength <- read radialLength ;;
  let radialFactor :=
    calculateRadialContribution totalR this_radialCount this_radialLength in
  let totalR := totalR * radialFactor in
  this_targetResistance <- read targetResistance ;;
  let efficiency := calculateEfficiency totalR this_targetResistance in
  this_faultVoltage <- read faultVoltage ;;
  let faultCurrent := calculateFaultCurrent this_faultVoltage totalR in
  let status := getSystemStatus totalR in
  ret {| resistivity := resistivity;
         singleRodResistance := singleRodR;
         couplingFactor := coupling;
         totalResistance := totalR;
         efficiency := efficiency;
         faultCurrent := faultCurrent;
         systemStatus := status |}.

Definition metrics_of (approx : float -> float) (g : GroundingSystem)
  : GroundingMetrics :=
  fst (calculate approx g).


(** The number a binary64 value stands for in the exact model. *)
Definition value (x : float) : JS.number :=
  match FloatOps.Prim2SF x with
  | SpecFloat.S754_zero _ => Fin 0
  | SpecFloat.S754_infinity false => Infinity
  | SpecFloat.S754_infinity true => NegInfinity
  | SpecFloat.S754_nan => NaN
  | SpecFloat.S754_finite s m e =>
      Fin ((if s then -1 else 1) * IZR (Zpos m) * powerRZ 2 e)%R
  end.

End B64.

(* ================================================================== *)
(** ** Reasoning about JavaScript numbers *)

Section NumberFacts.

Lemma Rleb_true (x y : R) : x <= y -> Rleb x y = true.
Proof. intros H; unfold Rleb; destruct (Rle_dec x y); [reflexivity | contradiction]. Qed.

Lemma Rleb_false (x y : R) : y < x -> Rleb x y = false.
Proof. intros H; unfold Rleb; destruct (Rle_dec x y); [lra | reflexivity]. Qed.

Lemma Rleb_spec (x y : R) : Rleb x y = true <-> x <= y.
Proof.
  unfold Rleb; destruct (Rle_dec x y); split; intros; try assumption;
    try reflexivity; try discriminate; contradiction.
Qed.

Lemma Reqb_true (x y : R) : x = y -> Reqb x y = true.
Proof. intros H; unfold Reqb; destruct (Req_dec_T x y); [reflexivity | contradiction]. Qed.

Lemma Reqb_false (x y : R) : x <> y -> Reqb x y = false.
Proof. intros H; unfold Reqb; destruct (Req_dec_T x y); [contradiction | reflexivity]. Qed.

Lemma sign_pos (r : R) : 0 < r -> sign r = Gt.
Proof.
  intros H; unfold sign; destruct (total_order_T r 0) as [[H1 | H1] | H1];
    try reflexivity; lra.
Qed.

Lemma sign_neg (r : R) : r < 0 -> sign r = Lt.
Proof.
  intros H; unfold sign; destruct (total_order_T r 0) as [[H1 | H1] | H1];
    try reflexivity; lra.
Qed.

Lemma sign_zero : sign 0 = Eq.
Proof.
  unfold sign; destruct (total_order_T 0 0) as [[H1 | H1] | H1];
    try reflexivity; lra.
Qed.

Lemma le_fin (x y : R) : x <= y -> le (Fin x) (Fin y) = true.
Proof. exact (Rleb_true x y). Qed.

Lemma le_fin_false (x y : R) : y < x -> le (Fin x) (Fin y) = false.
Proof. exact (Rleb_false x y). Qed.

Lemma ge_fin (x y : R) : y <= x -> ge (Fin x) (Fin y) = true.
Proof. exact (Rleb_true y x). Qed.

Lemma ge_fin_false (x y : R) : x < y -> ge (Fin x) (Fin y) = false.
Proof. exact (Rleb_false y x). Qed.

Lemma le_fin_iff (x y : R) : le (Fin x) (Fin y) = true <-> x <= y.
Proof. exact (Rleb_spec x y). Qed.

Lemma div_fin (x y : R) : y <> 0 -> div (Fin x) (Fin y) = Fin (x / y).
Proof.
  intros H; simpl; destruct (Rdichotomy _ _ H) as [H1 | H1].
  - now rewrite sign_neg.
  - now rewrite sign_pos by lra.
Qed.

Lemma min_fin (x y : R) : JS.min (Fin x) (Fin y) = Fin (Rmin x y).
Proof.
  simpl; unfold Rleb, Rmin; destruct (Rle_dec x y); reflexivity.
Qed.

Lemma max_fin (x y : R) : JS.max (Fin x) (Fin y) = Fin (Rmax x y).
Proof.
  simpl; unfold Rleb, Rmax; destruct (Rle_dec x y); reflexivity.
Qed.

Lemma div_scale (a b c : R) : b <> 0 -> c <> 0 -> a / (b * c) = a / c * / b.
Proof. intros Hb Hc. field. split; assumption. Qed.

End NumberFacts.

(** Decide a comparison of two finite numbers whose order [lra] can see. *)
Ltac js_cmp :=
  repeat first
    [ rewrite le_fin by lra
    | rewrite le_fin_false by lra
    | rewrite ge_fin by lra
    | rewrite ge_fin_false by lra
    | rewrite Reqb_true by lra
    | rewrite Reqb_false by lra ].


(* ================================================================== *)
(** ** Coupling factor *)

Module CouplingFacts.

Import GroundMath.



Lemma getCouplingFactor_table (spacing length : R) :
  length <> 0 ->
  exists k, getCouplingFactor (Fin spacing) (Fin length) = Fin k
            /\ couplingTable (spacing / length) k.
Proof.
  intros Hl. unfold getCouplingFactor. rewrite (div_fin _ _ Hl).
  set (ratio := spacing / length).
  unfold couplingTable.
  destruct (Rle_dec 2 ratio); [exists 0; js_cmp; split; [reflexivity | lra] |].
  destruct (Rle_dec 1.5 ratio); [exists 0.1; js_cmp; split; [reflexivity | lra] |].
  destruct (Rle_dec 1 ratio); [exists 0.2; js_cmp; split; [reflexivity | lra] |].
  destruct (Rle_dec 0.7 ratio); [exists 0.35; js_cmp; split; [reflexivity | lra] |].
  destruct (Rle_dec 0.5 ratio); [exists 0.5; js_cmp; split; [reflexivity | lra] |].
  exists 0.7; js_cmp; split; [reflexivity | lra].
Qed.



End CouplingFacts.

(* ================================================================== *)
(** ** Radial contribution *)

Module RadialFacts.

Import GroundMath.

(** C10. The radial contribution does not depend on its first argument
    [baseResistance]: any two base resistances give the same factor for the
    same radial count and length. *)
Theorem calculateRadialContribution_ignores_base
  (r1 r2 radialCount radialLength : number) :
  calculateRadialContribution r1 radialCount radialLength
  = calculateRadialContribution r2 radialCount radialLength.
Proof. reflexivity. Qed.

Lemma calculateRadialContribution_zero_count (base l : number) :
  calculateRadialContribution base (Fin 0) l = Fin 1.
Proof. unfold calculateRadialContribution; simpl; now rewrite Reqb_true. Qed.

Lemma calculateRadialContribution_zero_length (base : number) (c : R) :
  calculateRadialContribution base (Fin c) (Fin 0) = Fin 1.
Proof.
  unfold calculateRadialContribution; simpl.
  rewrite (Reqb_true 0 0) by reflexivity. now rewrite orb_true_r.
Qed.

Lemma calculateRadialContribution_nonzero (base : number) (c l : R) :
  c <> 0 -> l <> 0 ->
  calculateRadialContribution base (Fin c) (Fin l)
  = Fin (1 - Rmin 0.4 (c * l * 0.005)).
Proof.
  intros Hc Hl. unfold calculateRadialContribution. simpl strict_eq.
  rewrite !Reqb_false by assumption. simpl orb. cbv iota.
  change (Fin c * Fin l * Fin 0.005)%js with (Fin (c * l * 0.005)).
  rewrite min_fin. reflexivity.
Qed.

(** C7. For non-negative radial count and length the radial factor is a
    number between 0.6 and 1: it is 1 when either argument is zero and
    1 - min(0.4, count * length * 0.005) otherwise, so the reduction is at
    most 40 percent however large the product grows. *)
Theorem calculateRadialContribution_range (base : number) (c l : R) :
  0 <= c -> 0 <= l ->
  exists f : R,
    calculateRadialContribution base (Fin c) (Fin l) = Fin f /\
    0.6 <= f <= 1 /\
    (c = 0 \/ l = 0 -> f = 1) /\
    (c <> 0 -> l <> 0 -> f = 1 - Rmin 0.4 (c * l * 0.005)) /\
    1 - f <= 0.4.
Proof.
  intros Hc Hl.
  destruct (Req_dec_T c 0) as [Ec | Nc].
  { subst c. exists 1. rewrite calculateRadialContribution_zero_count.
    repeat split; try lra; intros; lra. }
  destruct (Req_dec_T l 0) as [El | Nl].
  { subst l. exists 1. rewrite calculateRadialContribution_zero_length.
    repeat split; try lra; intros; lra. }
  exists (1 - Rmin 0.4 (c * l * 0.005)).
  rewrite calculateRadialContribution_nonzero by assumption.
  assert (Hp : 0 <= c * l * 0.005) by nra.
  assert (Hm : 0 <= Rmin 0.4 (c * l * 0.005) <= 0.4).
  { split; [apply Rmin_glb; lra | apply Rmin_l]. }
  repeat split; lra.
Qed.

Lemma calculateRadialContribution_range_witness :
  exists f : R,
    calculateRadialContribution (Fin 7) (Fin 1000) (Fin 50) = Fin f /\
    0.6 <= f <= 1 /\
    (1000 = 0 \/ 50 = 0 -> f = 1) /\
    (1000 <> 0 -> 50 <> 0 -> f = 1 - Rmin 0.4 (1000 * 50 * 0.005)) /\
    1 - f <= 0.4.
Proof. apply (calculateRadialContribution_range (Fin 7) 1000 50); lra. Defined.

End RadialFacts.

(* ================================================================== *)
(** ** Parallel combination *)

Module ParallelFacts.

Import GroundMath.

Lemma calculateParallelResistance_one (single lambda : number) :
  calculateParallelResistance single (Fin 1) lambda = single.
Proof.
  unfold calculateParallelResistance. js_cmp. simpl. now rewrite Reqb_true.
Qed.

Lemma calculateParallelResistance_many (single lambda n : R) :
  1 < n ->
  calculateParallelResistance (Fin single) (Fin n) (Fin lambda)
  = Fin (single / n * (1 + lambda * (n - 1))).
Proof.
  intros Hn. unfold calculateParallelResistance. js_cmp.
  simpl strict_eq. rewrite Reqb_false by lra.
  rewrite div_fin by lra. reflexivity.
Qed.

Lemma calculateParallelResistance_many_inf (lambda n : R) :
  1 < n -> 0 <= lambda ->
  calculateParallelResistance Infinity (Fin n) (Fin lambda) = Infinity.
Proof.
  intros Hn Hl. unfold calculateParallelResistance. js_cmp.
  simpl strict_eq. rewrite Reqb_false by lra.
  simpl. rewrite (sign_pos n) by lra. simpl.
  rewrite sign_pos by nra. reflexivity.
Qed.





End ParallelFacts.

(* ================================================================== *)
(** ** Efficiency *)

Module EfficiencyFacts.

Import GroundMath.

Lemma calculateEfficiency_fin (r t : R) :
  0 < t -> calculateEfficiency (Fin r) (Fin t) = Fin (efficiencyValue r t).
Proof.
  intros Ht. unfold calculateEfficiency, efficiencyValue.
  destruct (Rle_dec r 0) as [H0 | H0]; js_cmp; [reflexivity |].
  change (Fin t * Fin 10)%js with (Fin (t * 10)).
  destruct (Rle_dec (t * 10) r) as [H1 | H1]; js_cmp; [reflexivity |].
  change (Fin r - Fin t)%js with (Fin (r - t)).
  change (Fin t * Fin 9)%js with (Fin (t * 9)).
  rewrite div_fin by lra.
  change ((Fin 1 - Fin ((r - t) / (t * 9))) * Fin 100)%js
    with (Fin ((1 - (r - t) / (t * 9)) * 100)).
  now rewrite min_fin, max_fin.
Qed.

Lemma efficiencyValue_range (r t : R) : 0 <= efficiencyValue r t <= 100.
Proof.
  unfold efficiencyValue.
  destruct (Rle_dec r 0); [lra |].
  destruct (Rle_dec (t * 10) r); [lra |].
  split; [apply Rmax_l |].
  apply Rmax_lub; [lra | apply Rmin_l].
Qed.

Lemma efficiencyValue_antitone (r1 r2 t : R) :
  0 < t -> r1 <= r2 -> efficiencyValue r2 t <= efficiencyValue r1 t.
Proof.
  intros Ht Hr.
  pose proof (efficiencyValue_range r2 t) as B2.
  pose proof (efficiencyValue_range r1 t) as B1.
  unfold efficiencyValue in *.
  destruct (Rle_dec r1 0); [destruct (Rle_dec r2 0); lra |].
  destruct (Rle_dec r2 0); [lra |].
  destruct (Rle_dec (t * 10) r2); [lra |].
  destruct (Rle_dec (t * 10) r1); [lra |].
  assert (Hq : (r1 - t) / (t * 9) <= (r2 - t) / (t * 9)).
  { unfold Rdiv. apply Rmult_le_compat_r; [| lra].
    apply Rlt_le, Rinv_0_lt_compat; lra. }
  apply Rle_max_compat_l, Rle_min_compat_l. lra.
Qed.

Lemma calculateEfficiency_range (r : number) (t : R) :
  0 < t -> r <> NaN ->
  exists e, calculateEfficiency r (Fin t) = Fin e /\ 0 <= e <= 100.
Proof.
  intros Ht Hr. destruct r as [x | | |]; [| | | contradiction].
  - exists (efficiencyValue x t).
    split; [apply calculateEfficiency_fin; exact Ht | apply efficiencyValue_range].
  - exists 0. split; [reflexivity | lra].
  - exists 100. split; [reflexivity | lra].
Qed.

(** C5. For a positive target the efficiency is 100 at resistance = target
    and 0 at resistance = 10 * target, and it never grows with the
    resistance: r1 <= r2 gives efficiency(r2) <= efficiency(r1). *)
Theorem calculateEfficiency_endpoints_antitone (target : R) :
  0 < target ->
  calculateEfficiency (Fin target) (Fin target) = Fin 100 /\
  calculateEfficiency (Fin 10 * Fin target)%js (Fin target) = Fin 0 /\
  forall r1 r2 : number,
    (r1 <=? r2)%js = true ->
    (calculateEfficiency r2 (Fin target) <=? calculateEfficiency r1 (Fin target))%js
    = true.
Proof.
  intros Ht. split; [| split].
  - rewrite calculateEfficiency_fin by exact Ht. f_equal.
    unfold efficiencyValue.
    destruct (Rle_dec target 0); [lra |].
    destruct (Rle_dec (target * 10) target); [lra |].
    replace ((1 - (target - target) / (target * 9)) * 100) with 100
      by (field; lra).
    rewrite Rmin_left by lra. apply Rmax_right; lra.
  - change (Fin 10 * Fin target)%js with (Fin (10 * target)).
    rewrite calculateEfficiency_fin by exact Ht. f_equal.
    unfold efficiencyValue.
    destruct (Rle_dec (10 * target) 0); [lra |].
    destruct (Rle_dec (target * 10) (10 * target)); [reflexivity | lra].
  - intros r1 r2 Hle.
    assert (N1 : r1 <> NaN) by (intros E; subst r1; discriminate Hle).
    assert (N2 : r2 <> NaN)
      by (intros E; subst r2; destruct r1; discriminate Hle).
    destruct (calculateEfficiency_range r1 target Ht N1) as [e1 [E1 B1]].
    destruct (calculateEfficiency_range r2 target Ht N2) as [e2 [E2 B2]].
    destruct r1 as [x1 | | |], r2 as [x2 | | |]; try discriminate Hle;
      try contradiction.
    + rewrite !calculateEfficiency_fin by exact Ht. apply le_fin.
      apply efficiencyValue_antitone; [exact Ht |].
      apply le_fin_iff; exact Hle.
    + rewrite E1. change (calculateEfficiency Infinity (Fin target)) with (Fin 0).
      apply le_fin; lra.
    + change (calculateEfficiency Infinity (Fin target)) with (Fin 0).
      apply le_fin; lra.
    + rewrite E2. change (calculateEfficiency NegInfinity (Fin target)) with (Fin 100).
      apply le_fin; lra.
    + change (calculateEfficiency Infinity (Fin target)) with (Fin 0).
      change (calculateEfficiency NegInfinity (Fin target)) with (Fin 100).
      apply le_fin; lra.
    + change (calculateEfficiency NegInfinity (Fin target)) with (Fin 100).
      apply le_fin; lra.
Qed.

Lemma calculateEfficiency_endpoints_antitone_witness :
  calculateEfficiency (Fin 5) (Fin 5) = Fin 100 /\
  calculateEfficiency (Fin 10 * Fin 5)%js (Fin 5) = Fin 0 /\
  forall r1 r2 : number,
    (r1 <=? r2)%js = true ->
    (calculateEfficiency r2 (Fin 5) <=? calculateEfficiency r1 (Fin 5))%js
    = true.
Proof. apply (calculateEfficiency_endpoints_antitone 5); lra. Defined.

End EfficiencyFacts.

(* ================================================================== *)
(** ** Weather and humidity adjustment *)

Module ResistivityFacts.

Import GroundMath.
Open Scope string_scope.


Lemma adjustResistivityForWeather_fin (base k h : R) (w : string) :
  weatherFactor w = Fin k ->
  adjustResistivityForWeather (Fin base) w (Fin h)
  = Fin (base * (k * (1 - h * 0.3))).
Proof.
  intros Hk. unfold adjustResistivityForWeather. rewrite Hk. reflexivity.
Qed.



End ResistivityFacts.

(* ================================================================== *)
(** ** Methods that only read their receiver *)

Module MethodFacts.

Import GroundMath.

Lemma ret_read_only {S A} (a : A) : read_only (@ret S A a).
Proof. intros this; reflexivity. Qed.

Lemma read_read_only {S A} (field : S -> A) : read_only (read field).
Proof. intros this; reflexivity. Qed.

Lemma bind_read_only {S A B} (m : Method S A) (k : A -> Method S B) :
  read_only m -> (forall a, read_only (k a)) -> read_only (bind m k).
Proof.
  intros Hm Hk this. unfold bind.
  specialize (Hm this). destruct (m this) as [a this']. simpl in Hm.
  subst this'. apply Hk.
Qed.

Lemma calculate_read_only : read_only calculate.
Proof.
  unfold calculate.
  repeat (apply bind_read_only; [apply read_read_only | intros ?]).
  apply ret_read_only.
Qed.

(** C9. A call of [calculate] leaves every field of the configuration as it
    was, and so a second call right after the first returns the same metrics
    snapshot. *)
Theorem calculate_frame (g : GroundingSystem) :
  after_calculate g = g /\
  (rodCount (after_calculate g) = rodCount g /\
   rodLength (after_calculate g) = rodLength g /\
   rodDiameter (after_calculate g) = rodDiameter g /\
   rodSpacing (after_calculate g) = rodSpacing g /\
   radialCount (after_calculate g) = radialCount g /\
   radialLength (after_calculate g) = radialLength g /\
   soilType (after_calculate g) = soilType g /\
   weather (after_calculate g) = weather g /\
   humidity (after_calculate g) = humidity g /\
   faultVoltage (after_calculate g) = faultVoltage g /\
   targetResistance (after_calculate g) = targetResistance g) /\
  metrics_of (after_calculate g) = metrics_of g.
Proof.
  assert (H : after_calculate g = g) by exact (calculate_read_only g).
  rewrite H. repeat split.
Qed.

End MethodFacts.

(* ================================================================== *)
(** ** The metrics snapshot, field by field *)

Module CalculateFacts.

Import GroundMath.
Open Scope string_scope.

Lemma resistivity_eq (g : GroundingSystem) :
  resistivity (metrics_of g)
  = adjustResistivityForWeather (baseResistivity g) (weather g) (humidity g).
Proof. reflexivity. Qed.

Lemma singleRodResistance_eq (g : GroundingSystem) :
  singleRodResistance (metrics_of g)
  = calculateSingleRodResistance
      (resistivity (metrics_of g)) (rodLength g) (rodDiameter g).
Proof. reflexivity. Qed.

Lemma couplingFactor_eq (g : GroundingSystem) :
  couplingFactor (metrics_of g) = getCouplingFactor (rodSpacing g) (rodLength g).
Proof. reflexivity. Qed.

Lemma totalResistance_eq (g : GroundingSystem) :
  totalResistance (metrics_of g) = (parallelResistance g * radialFactor g)%js.
Proof. reflexivity. Qed.

Lemma efficiency_eq (g : GroundingSystem) :
  efficiency (metrics_of g)
  = calculateEfficiency (totalResistance (metrics_of g)) (targetResistance g).
Proof. reflexivity. Qed.

Lemma faultCurrent_eq (g : GroundingSystem) :
  faultCurrent (metrics_of g)
  = calculateFaultCurrent (faultVoltage g) (totalResistance (metrics_of g)).
Proof. reflexivity. Qed.

Lemma systemStatus_eq (g : GroundingSystem) :
  systemStatus (metrics_of g) = getSystemStatus (totalResistance (metrics_of g)).
Proof. reflexivity. Qed.


Lemma calculateSingleRodResistance_fin (rho L d : R) :
  0 < L -> 0 < d ->
  calculateSingleRodResistance (Fin rho) (Fin L) (Fin d)
  = Fin (rho / (2 * Rtrigo1.PI * L) * ln (4 * L / d)).
Proof.
  intros HL Hd. unfold calculateSingleRodResistance. js_cmp. simpl orb. cbv iota.
  pose proof PI_RGT_0 as Hpi.
  change (Fin 2 * JS.PI * Fin L)%js with (Fin (2 * Rtrigo1.PI * L)).
  change (Fin 4 * Fin L)%js with (Fin (4 * L)).
  rewrite (div_fin rho) by nra.
  rewrite (div_fin (4 * L)) by lra.
  assert (Hq : 0 < 4 * L / d).
  { apply Rmult_lt_0_compat; [lra | apply Rinv_0_lt_compat; exact Hd]. }
  unfold log. rewrite (sign_pos _ Hq). reflexivity.
Qed.

Lemma radialFactor_positive (base : number) (c l : R) :
  0 <= c -> 0 <= l ->
  exists f : R, calculateRadialContribution base (Fin c) (Fin l) = Fin f /\ 0 < f.
Proof.
  intros Hc Hl.
  destruct (Req_dec_T c 0) as [Ec | Nc].
  { subst c. exists 1.
    split; [apply RadialFacts.calculateRadialContribution_zero_count | lra]. }
  destruct (Req_dec_T l 0) as [El | Nl].
  { subst l. exists 1.
    split; [apply RadialFacts.calculateRadialContribution_zero_length | lra]. }
  exists (1 - Rmin 0.4 (c * l * 0.005)).
  split; [apply RadialFacts.calculateRadialContribution_nonzero; assumption |].
  pose proof (Rmin_l 0.4 (c * l * 0.005)). lra.
Qed.



End CalculateFacts.

(* ================================================================== *)
(** ** Bounds on pi and on ln 600 *)

Module NumericBounds.

Lemma PI_bounds : 3.14159 < Rtrigo1.PI < 3.1416.
Proof.
  pose proof (PI_2_3_7_ineq 2) as H.
  unfold PI_2_3_7_tg, Ratan_seq, tg_alt in H.
  cbn [sum_f_R0 Nat.mul Nat.add pow INR] in H.
  lra.
Qed.

Lemma exp_double_lower (y c c' : R) :
  0 <= c <= exp y -> c' <= c * c -> c' <= exp (2 * y).
Proof.
  intros Hc Hc'. replace (2 * y) with (y + y) by ring. rewrite exp_plus.
  pose proof (exp_pos y). nra.
Qed.

(** Squaring a lower bound of [exp y] n times bounds [exp (2^n * y)]. *)
Lemma exp_squares_lower (cs : list R) :
  forall c y, 0 <= c <= exp y -> squares_down c cs ->
  chain_end c cs <= exp (2 ^ length cs * y).
Proof.
  induction cs as [| c' cs IH]; intros c y Hc Hs.
  - simpl. rewrite Rmult_1_l. apply Hc.
  - destruct Hs as [Hc' Hs].
    assert (Hstep : 0 <= c' <= exp (2 * y)).
    { split; [apply Hc' |]. apply (exp_double_lower y c c' Hc). apply Hc'. }
    specialize (IH c' (2 * y) Hstep Hs).
    replace (2 ^ length (c' :: cs) * y) with (2 ^ length cs * (2 * y))
      by (simpl; ring).
    exact IH.
Qed.

Lemma exp_6398_lower : 600 < exp 6.398.
Proof.
  assert (H : chain_end (1 + 6.398 / 32768) chain_up
              <= exp (2 ^ length chain_up * (6.398 / 32768))).
  { apply exp_squares_lower.
    - split; [lra | apply exp_ineq1_le].
    - unfold chain_up, squares_down. repeat split; lra. }
  replace (2 ^ length chain_up * (6.398 / 32768)) with 6.398 in H
    by (unfold chain_up; simpl length; lra).
  unfold chain_up in H; simpl chain_end in H. lra.
Qed.

Lemma exp_6396_upper : exp 6.396 < 600.
Proof.
  assert (H : chain_end (1 + - 6.396 / 32768) chain_down
              <= exp (2 ^ length chain_down * (- 6.396 / 32768))).
  { apply exp_squares_lower.
    - split; [lra | apply exp_ineq1_le].
    - unfold chain_down, squares_down. repeat split; lra. }
  replace (2 ^ length chain_down * (- 6.396 / 32768)) with (- 6.396) in H
    by (unfold chain_down; simpl length; lra).
  unfold chain_down in H; simpl chain_end in H.
  pose proof (exp_pos 6.396) as Hp.
  assert (Hinv : exp (- 6.396) * exp 6.396 = 1).
  { rewrite <- exp_plus. replace (- 6.396 + 6.396) with 0 by lra. apply exp_0. }
  nra.
Qed.

Lemma ln_600_bounds : 6.396 < ln 600 < 6.398.
Proof.
  split; apply exp_lt_inv; rewrite exp_ln by lra.
  - exact exp_6396_upper.
  - exact exp_6398_lower.
Qed.

End NumericBounds.

(* ================================================================== *)
(** ** The default configuration *)

Module DefaultScenario.

Import GroundMath CalculateFacts.
Open Scope string_scope.

Lemma default_resistivity : resistivity (metrics_of constructor) = Fin 34.
Proof.
  rewrite resistivity_eq. unfold baseResistivity.
  change (get SOIL_RESISTIVITY (soilType constructor)) with (Own (Fin 40)).
  unfold property_or, or_default, truthy. rewrite Reqb_false by lra.
  simpl negb. cbv iota.
  change (weather constructor) with "sunny".
  change (humidity constructor) with (Fin 0.5).
  rewrite (ResistivityFacts.adjustResistivityForWeather_fin 40 1 0.5 "sunny" eq_refl).
  f_equal. lra.
Qed.

Lemma default_couplingFactor : couplingFactor (metrics_of constructor) = Fin 0.2.
Proof.
  rewrite couplingFactor_eq.
  change (rodSpacing constructor) with (Fin 3).
  change (rodLength constructor) with (Fin 2.4).
  destruct (CouplingFacts.getCouplingFactor_table 3 2.4) as [k [E T]]; [lra |].
  rewrite E. f_equal. unfold couplingTable in T. lra.
Qed.

Lemma default_radialFactor : radialFactor constructor = Fin 0.8.
Proof.
  unfold radialFactor.
  change (radialCount constructor) with (Fin 8).
  change (radialLength constructor) with (Fin 5).
  rewrite RadialFacts.calculateRadialContribution_nonzero by lra.
  f_equal. rewrite Rmin_right by lra. lra.
Qed.

Lemma default_singleRodResistance :
  singleRodResistance (metrics_of constructor)
  = Fin (34 / (2 * Rtrigo1.PI * 2.4) * ln 600).
Proof.
  rewrite singleRodResistance_eq, default_resistivity.
  change (rodLength constructor) with (Fin 2.4).
  change (rodDiameter constructor) with (Fin 0.016).
  rewrite calculateSingleRodResistance_fin by lra.
  do 3 f_equal. lra.
Qed.

Lemma default_parallelResistance :
  parallelResistance constructor
  = Fin (34 / (2 * Rtrigo1.PI * 2.4) * ln 600 / 4 * (1 + 0.2 * (4 - 1))).
Proof.
  unfold parallelResistance.
  rewrite default_singleRodResistance, default_couplingFactor.
  change (rodCount constructor) with (Fin 4).
  apply ParallelFacts.calculateParallelResistance_many. lra.
Qed.

(** Total resistance of the default configuration, as a real. *)
Lemma default_totalResistance :
  totalResistance (metrics_of constructor)
  = Fin (34 / 15 * ln 600 / Rtrigo1.PI).
Proof.
  rewrite totalResistance_eq, default_parallelResistance, default_radialFactor.
  simpl mul. f_equal. pose proof PI_RGT_0.
  replace (2 * Rtrigo1.PI * 2.4) with (Rtrigo1.PI * 4.8) by lra.
  rewrite div_scale by lra.
  unfold Rdiv. set (q := / Rtrigo1.PI). lra.
Qed.

Lemma default_totalResistance_bounds :
  4.614 < 34 / 15 * ln 600 / Rtrigo1.PI < 4.617.
Proof.
  pose proof NumericBounds.PI_bounds as [P1 P2].
  pose proof NumericBounds.ln_600_bounds as [L1 L2].
  set (l := ln 600) in *. set (p := Rtrigo1.PI) in *.
  assert (Hp : 0 < / p) by (apply Rinv_0_lt_compat; lra).
  assert (E : p * / p = 1) by (apply Rinv_r; lra).
  unfold Rdiv. set (q := / p) in *.
  split; nra.
Qed.

(** C1. For the default configuration [calculate] gives an adjusted
    resistivity of exactly 34, a coupling factor of exactly 0.2, a radial
    factor of exactly 0.8, a total resistance within 0.01 of 4.62 (between
    4.614 and 4.617) that is at most 5, the status excellent, and a fault
    current 220 / totalResistance within 0.1 of 47.6. *)
Theorem calculate_default :
  let m := metrics_of constructor in
  resistivity m = Fin 34 /\
  couplingFactor m = Fin 0.2 /\
  radialFactor constructor = Fin 0.8 /\
  exists t : R,
    totalResistance m = Fin t /\
    4.614 < t < 4.617 /\ Rabs (t - 4.62) < 0.01 /\
    t <= 5 /\ status (systemStatus m) = "excellent" /\
    faultCurrent m = Fin (220 / t) /\
    Rabs (220 / t - 47.6) < 0.1.
Proof.
  intros m. unfold m.
  split; [exact default_resistivity |].
  split; [exact default_couplingFactor |].
  split; [exact default_radialFactor |].
  exists (34 / 15 * ln 600 / Rtrigo1.PI).
  pose proof default_totalResistance_bounds as B.
  set (t := 34 / 15 * ln 600 / Rtrigo1.PI) in *.
  split; [exact default_totalResistance |].
  split; [exact B |].
  split; [apply Rabs_def1; lra |].
  split; [lra |].
  rewrite systemStatus_eq, faultCurrent_eq, default_totalResistance. fold t.
  split.
  { unfold getSystemStatus. js_cmp. reflexivity. }
  assert (Hq : 47.6 < 220 / t < 47.7).
  { assert (Ht : 0 < / t) by (apply Rinv_0_lt_compat; lra).
    assert (E : t * / t = 1) by (apply Rinv_r; lra).
    unfold Rdiv. set (q := / t) in *. split; nra. }
  split.
  { unfold calculateFaultCurrent. js_cmp.
    change (faultVoltage constructor) with (Fin 220).
    apply div_fin. lra. }
  apply Rabs_def1; lra.
Qed.

End DefaultScenario.

(* ================================================================== *)
(** ** Humidity written by the handlers *)

Module HandlerFacts.

Import GroundMath Main.
Open Scope string_scope.

Lemma updateCalculations_groundingSystem (sim : GroundingSimulator) :
  groundingSystem (snd (updateCalculations sim)) = groundingSystem sim.
Proof.
  unfold updateCalculations.
  pose proof (MethodFacts.calculate_read_only (groundingSystem sim)) as H.
  destruct (calculate (groundingSystem sim)) as [m g']. exact H.
Qed.

Lemma updateCalculations_terrain (sim : GroundingSimulator) :
  terrain (snd (updateCalculations sim)) = terrain sim.
Proof.
  unfold updateCalculations.
  destruct (calculate (groundingSystem sim)) as [m g']. reflexivity.
Qed.

(** What [handleTerrainChange('humidity', v)] leaves in the two objects. *)
Lemma handleTerrainChange_humidity (sim : GroundingSimulator) (v : number) :
  let sim' := snd (handleTerrainChange (humidity_change v) sim) in
  humidity (groundingSystem sim') = v /\
  Terrain.humidity (terrain sim') = JS.max (Fin 0) (JS.min (Fin 1) v).
Proof.
  unfold handleTerrainChange, bind, on_terrain, on_groundingSystem, assign.
  cbv zeta.
  rewrite updateCalculations_groundingSystem, updateCalculations_terrain.
  split; reflexivity.
Qed.

(** What [handleClimateChange('weather', w)] leaves as humidity. *)
Lemma handleClimateChange_humidity (sim : GroundingSimulator) (w : string) :
  let sim' := snd (handleClimateChange (weather_change w) sim) in
  humidity (groundingSystem sim') = Climate.humidity (Climate.setWeather w (climate sim)).
Proof.
  unfold handleClimateChange, bind, on_terrain, on_groundingSystem,
    on_climate, assign, read.
  cbv zeta.
  rewrite updateCalculations_groundingSystem. reflexivity.
Qed.

(** The humidity preset of a weather tag, as [setWeather] assigns it. *)
Lemma setWeather_humidity (w : string) (c : Climate.ClimateSystem) :
  Climate.humidity (Climate.setWeather w c)
  = (if String.eqb w "rain" then Fin 0.9
     else if String.eqb w "snow" then Fin 0.7
     else if String.eqb w "storm" then Fin 1.0
     else Fin 0.3) /\
  In (Climate.humidity (Climate.setWeather w c))
     [Fin 0.3; Fin 0.7; Fin 0.9; Fin 1.0] /\
  in_unit_interval (Climate.humidity (Climate.setWeather w c)).
Proof.
  unfold Climate.setWeather, in_unit_interval. cbn [Climate.humidity].
  split; [reflexivity |].
  destruct (String.eqb w "rain");
    [split; [simpl; tauto | exists 0.9; split; [reflexivity | lra]] |].
  destruct (String.eqb w "snow");
    [split; [simpl; tauto | exists 0.7; split; [reflexivity | lra]] |].
  destruct (String.eqb w "storm");
    [split; [simpl; tauto | exists 1.0; split; [reflexivity | lra]] |].
  split; [simpl; tauto | exists 0.3; split; [reflexivity | lra]].
Qed.

(** [Terrain.setHumidity] clamps whatever number it is given. *)
Lemma setHumidity_clamps (v : number) (t : Terrain.Terrain) :
  v <> NaN -> in_unit_interval (Terrain.humidity (Terrain.setHumidity v t)).
Proof.
  intros Hv. unfold Terrain.setHumidity, in_unit_interval. cbn [Terrain.humidity].
  destruct v as [x | | |]; [| | | contradiction].
  - rewrite min_fin, max_fin. eexists; split; [reflexivity |].
    split; [apply Rmax_l |].
    apply Rmax_lub; [lra | apply Rmin_l].
  - exists 1. simpl. rewrite Rleb_true by lra. split; [reflexivity | lra].
  - exists 0. simpl. split; [reflexivity | lra].
Qed.

(** Clamping to [0,1] leaves a number of [0,1] as it is. *)
Lemma clamp_in_unit_interval (v : number) :
  in_unit_interval v -> JS.max (Fin 0) (JS.min (Fin 1) v) = v.
Proof.
  intros [r [-> B]]. rewrite min_fin, max_fin. f_equal.
  rewrite Rmin_right by lra. apply Rmax_right; lra.
Qed.

(** What [handleClimateChange('weather', w)] leaves in the terrain. *)
Lemma handleClimateChange_terrain_humidity (sim : GroundingSimulator) (w : string) :
  let sim' := snd (handleClimateChange (weather_change w) sim) in
  Terrain.humidity (terrain sim')
  = JS.max (Fin 0) (JS.min (Fin 1)
      (Climate.humidity (Climate.setWeather w (climate sim)))).
Proof.
  unfold handleClimateChange, bind, on_terrain, on_groundingSystem,
    on_climate, assign, read.
  cbv zeta.
  rewrite updateCalculations_terrain. reflexivity.
Qed.

(** The handler writes the raw value into the grounding configuration: from
    the initial state, [handleTerrainChange('humidity', 2)] leaves humidity 2
    there, outside [0,1]. *)
Lemma handleTerrainChange_humidity_unclamped :
  let sim' := snd (handleTerrainChange (humidity_change (Fin 2)) setupSystems) in
  humidity (groundingSystem sim') = Fin 2 /\
  ~ in_unit_interval (humidity (groundingSystem sim')).
Proof.
  destruct (handleTerrainChange_humidity setupSystems (Fin 2)) as [H _].
  cbv zeta. rewrite H. split; [reflexivity |].
  intros [r [E B]]. injection E as E. lra.
Qed.

(** C3 (amended). The grounding configuration stores the humidity it is
    handed, unclamped: after [handleTerrainChange('humidity', v)] it holds v
    itself, so it lies in [0,1] exactly when v does.  Only the terrain's own
    copy is clamped: it is max(0, min(1, v)), a number of [0,1] for every v
    but NaN.  After [handleClimateChange('weather', w)] the configuration
    holds the preset of the weather, 0.9 for rain, 0.7 for snow, 1.0 for
    storm and 0.3 for every other tag, and the terrain holds the same
    number.  The constructor stores 0.5. *)
Theorem grounding_humidity_in_range
  (sim : GroundingSimulator) (v : number) (w : string) :
  let after_terrain := snd (handleTerrainChange (humidity_change v) sim) in
  let after_climate := snd (handleClimateChange (weather_change w) sim) in
  humidity (groundingSystem after_terrain) = v /\
  (in_unit_interval (humidity (groundingSystem after_terrain))
   <-> in_unit_interval v) /\
  Terrain.humidity (terrain after_terrain) = JS.max (Fin 0) (JS.min (Fin 1) v) /\
  (v <> NaN -> in_unit_interval (Terrain.humidity (terrain after_terrain))) /\
  humidity (groundingSystem after_climate)
  = (if String.eqb w "rain" then Fin 0.9
     else if String.eqb w "snow" then Fin 0.7
     else if String.eqb w "storm" then Fin 1.0
     else Fin 0.3) /\
  In (humidity (groundingSystem after_climate))
     [Fin 0.3; Fin 0.7; Fin 0.9; Fin 1.0] /\
  Terrain.humidity (terrain after_climate)
  = humidity (groundingSystem after_climate) /\
  humidity GroundMath.constructor = Fin 0.5.
Proof.
  intros after_terrain after_climate.
  destruct (handleTerrainChange_humidity sim v) as [Hg Ht].
  fold after_terrain in Hg, Ht.
  pose proof (handleClimateChange_humidity sim w) as Hc.
  pose proof (handleClimateChange_terrain_humidity sim w) as Hct.
  fold after_climate in Hc, Hct.
  destruct (setWeather_humidity w (climate sim)) as [Hpreset [Hin Hunit]].
  split; [exact Hg |].
  split; [rewrite Hg; tauto |].
  split; [exact Ht |].
  split.
  { intros Hv. rewrite Ht. exact (setHumidity_clamps v (terrain sim) Hv). }
  split; [rewrite Hc; exact Hpreset |].
  split; [rewrite Hc; exact Hin |].
  split; [| reflexivity].
  rewrite Hct, Hc. apply clamp_in_unit_interval. exact Hunit.
Qed.

Lemma grounding_humidity_in_range_witness :
  let after_terrain :=
    snd (handleTerrainChange (humidity_change (Fin 0.75)) setupSystems) in
  let after_climate :=
    snd (handleClimateChange (weather_change "storm") setupSystems) in
  humidity (groundingSystem after_terrain) = Fin 0.75 /\
  (in_unit_interval (humidity (groundingSystem after_terrain))
   <-> in_unit_interval (Fin 0.75)) /\
  Terrain.humidity (terrain after_terrain)
  = JS.max (Fin 0) (JS.min (Fin 1) (Fin 0.75)) /\
  (Fin 0.75 <> NaN -> in_unit_interval (Terrain.humidity (terrain after_terrain))) /\
  humidity (groundingSystem after_climate)
  = (if String.eqb "storm" "rain" then Fin 0.9
     else if String.eqb "storm" "snow" then Fin 0.7
     else if String.eqb "storm" "storm" then Fin 1.0
     else Fin 0.3) /\
  In (humidity (groundingSystem after_climate))
     [Fin 0.3; Fin 0.7; Fin 0.9; Fin 1.0] /\
  Terrain.humidity (terrain after_climate)
  = humidity (groundingSystem after_climate) /\
  humidity GroundMath.constructor = Fin 0.5.
Proof.
  exact (grounding_humidity_in_range setupSystems (Fin 0.75) "storm").
Defined.

End HandlerFacts.

(* ================================================================== *)
(** ** Binary64 runs of the engine *)

Module B64Facts.

Import PrimFloat.

Local Open Scope float_scope.







(** Without rods nothing else matters, in binary64 as in the exact model:
    with the radials, the voltage and the target of the constructor, every
    rod length, diameter and spacing (NaN, zeros and infinities included),
    every soil, weather and humidity, and whatever [Math.log] computes, give
    a total resistance of +Infinity, efficiency 0, the status danger and a
    fault current of 0. *)
Theorem calculate_no_rods_binary64
  (approx : float -> float) (L d s h : float) (soil w : string) :
  let g := {| B64.rodCount := 0; B64.rodLength := L; B64.rodDiameter := d;
              B64.rodSpacing := s; B64.radialCount := 8; B64.radialLength := 5;
              B64.soilType := soil; B64.weather := w; B64.humidity := h;
              B64.faultVoltage := 220; B64.targetResistance := 5 |} in
  let m := B64.metrics_of approx g in
  B64.totalResistance m = infinity /\
  B64.efficiency m = 0 /\
  GroundMath.status (B64.systemStatus m) = "danger"%string /\
  B64.faultCurrent m = 0.
Proof. cbv zeta. vm_compute. repeat split. Qed.

End B64Facts.

(* ================================================================== *)
(** ** Single-rod resistance: the sign of the logarithm *)

Module SingleRodProps.

Import GroundMath.



End SingleRodProps.

(* ================================================================== *)
(** ** utils.js: clamp, mapRange, smoothstep *)

Module UtilsProps.

Import Utils.

Lemma clamp_fin (x lo hi : R) :
  clamp (Fin x) (Fin lo) (Fin hi) = Fin (Rmax lo (Rmin hi x)).
Proof. unfold clamp. now rewrite min_fin, max_fin. Qed.

Lemma clamp_value (v : number) (lo hi : R) :
  v <> NaN ->
  exists r : R, clamp v (Fin lo) (Fin hi) = Fin r /\
    (lo <= hi -> lo <= r <= hi) /\ (hi < lo -> r = lo) /\
    (forall x, v = Fin x -> lo <= x <= hi -> r = x).
Proof.
  intros Hv. destruct v as [x | | |]; [| | | contradiction].
  - exists (Rmax lo (Rmin hi x)). split; [apply clamp_fin |].
    unfold Rmax, Rmin.
    destruct (Rle_dec hi x); destruct (Rle_dec lo _);
      repeat split; intros; try lra;
      match goal with H : Fin _ = Fin _ |- _ => injection H as <- end; lra.
  - exists (Rmax lo hi). split; [unfold clamp; simpl JS.min; apply max_fin |].
    unfold Rmax. destruct (Rle_dec lo hi); repeat split; intros; try lra;
      discriminate.
  - exists lo. split; [reflexivity |].
    repeat split; intros; try lra; discriminate.
Qed.

(** [clamp] of any number but NaN, between finite bounds: with min <= max the
    result lies in [min, max], is the value itself when the value already lies
    there, and clamping it again changes nothing; with min > max the result
    is min. *)
Theorem clamp_spec (v : number) (lo hi : R) :
  v <> NaN ->
  exists r : R,
    clamp v (Fin lo) (Fin hi) = Fin r /\
    (lo <= hi -> lo <= r <= hi) /\
    (hi < lo -> r = lo) /\
    (forall x, v = Fin x -> lo <= x <= hi -> r = x) /\
    (lo <= hi -> clamp (Fin r) (Fin lo) (Fin hi) = Fin r).
Proof.
  intros Hv. destruct (clamp_value v lo hi Hv) as [r [E [H1 [H2 H3]]]].
  exists r. repeat split; try assumption; try (apply H1; assumption);
    try (apply H2; assumption).
  intros Hle. specialize (H1 Hle).
  rewrite clamp_fin. f_equal.
  rewrite Rmin_right by lra. apply Rmax_right; lra.
Qed.

Lemma clamp_spec_witness :
  exists r : R,
    clamp Infinity (Fin 0) (Fin 1) = Fin r /\
    (0 <= 1 -> 0 <= r <= 1) /\
    (1 < 0 -> r = 0) /\
    (forall x, Infinity = Fin x -> 0 <= x <= 1 -> r = x) /\
    (0 <= 1 -> clamp (Fin r) (Fin 0) (Fin 1) = Fin r).
Proof. apply (clamp_spec Infinity 0 1). discriminate. Defined.

(** With an empty input range (inMin = inMax) [mapRange] never returns a
    finite number, whatever the finite value and output range: the division
    by zero gives an infinity or NaN that reaches the result. *)
Theorem mapRange_empty_input_range (v a c d : R) :
  ~ is_finite (mapRange (Fin v) (Fin a) (Fin a) (Fin c) (Fin d)).
Proof.
  unfold mapRange, is_finite.
  change (Fin a - Fin a)%js with (Fin (a - a)).
  change (Fin v - Fin a)%js with (Fin (v - a)).
  change (Fin d - Fin c)%js with (Fin (d - c)).
  replace (a - a) with 0 by ring.
  unfold div. rewrite sign_zero.
  intros [r E].
  destruct (sign (v - a)); simpl in E; try discriminate E;
    destruct (sign (d - c)); simpl in E; discriminate E.
Qed.






End UtilsProps.

(* ================================================================== *)
(** ** utils.js: randomInt *)

Module RandomProps.

Import Utils.



End RandomProps.

(* ================================================================== *)
(** ** Coupling factor on every input *)

Module ParallelProps.

Import GroundMath.

Lemma getCouplingFactor_range (spacing length : number) :
  exists k : R, getCouplingFactor spacing length = Fin k /\ 0 <= k <= 0.7.
Proof.
  unfold getCouplingFactor.
  repeat match goal with
         | |- context [if ?c then _ else _] => destruct c
         end; eexists; (split; [reflexivity | lra]).
Qed.

(** Whatever the two arguments are (zero length, infinities, NaN), the
    coupling factor is a finite number between 0 and 0.7; a ratio that is
    NaN, such as 0/0, gives 0.7. *)
Theorem getCouplingFactor_total (spacing length : number) :
  (exists k : R,
     getCouplingFactor spacing length = Fin k /\ 0 <= k <= 0.7) /\
  ((spacing / length)%js = NaN -> getCouplingFactor spacing length = Fin 0.7) /\
  getCouplingFactor (Fin 0) (Fin 0) = Fin 0.7.
Proof.
  assert (Hnan : forall s l : number,
             (s / l)%js = NaN -> getCouplingFactor s l = Fin 0.7).
  { intros s l E. unfold getCouplingFactor. rewrite E. reflexivity. }
  split; [| split].
  - apply getCouplingFactor_range.
  - apply Hnan.
  - apply Hnan. simpl. now rewrite sign_zero.
Qed.

Lemma getCouplingFactor_total_witness :
  (exists k : R,
     getCouplingFactor Infinity Infinity = Fin k /\ 0 <= k <= 0.7) /\
  ((Infinity / Infinity)%js = NaN -> getCouplingFactor Infinity Infinity = Fin 0.7) /\
  getCouplingFactor (Fin 0) (Fin 0) = Fin 0.7.
Proof. apply (getCouplingFactor_total Infinity Infinity). Defined.

End ParallelProps.

(* ================================================================== *)
(** ** Radial factor, efficiency and fault current *)

Module RadialProps.

Import GroundMath.

Lemma calculateRadialContribution_closed (base : number) (c l : R) :
  0 <= c -> 0 <= l ->
  calculateRadialContribution base (Fin c) (Fin l)
  = Fin (1 - Rmin 0.4 (c * l * 0.005)).
Proof.
  intros Hc Hl.
  destruct (Req_dec_T c 0) as [Ec | Nc].
  { subst c. rewrite RadialFacts.calculateRadialContribution_zero_count.
    f_equal. rewrite Rmin_right by lra. lra. }
  destruct (Req_dec_T l 0) as [El | Nl].
  { subst l. rewrite RadialFacts.calculateRadialContribution_zero_length.
    f_equal. rewrite Rmin_right by lra. lra. }
  apply RadialFacts.calculateRadialContribution_nonzero; assumption.
Qed.

(** More radial wire never raises the factor: for non-negative counts and
    lengths, a larger product count * length gives a factor that is no
    larger, and from a product of 80 on the factor is exactly 0.6. *)
Theorem calculateRadialContribution_antitone
  (base1 base2 : number) (c1 l1 c2 l2 : R) :
  0 <= c1 -> 0 <= l1 -> 0 <= c2 -> 0 <= l2 -> c1 * l1 <= c2 * l2 ->
  (calculateRadialContribution base2 (Fin c2) (Fin l2)
   <=? calculateRadialContribution base1 (Fin c1) (Fin l1))%js = true /\
  (80 <= c1 * l1 ->
   calculateRadialContribution base1 (Fin c1) (Fin l1) = Fin 0.6).
Proof.
  intros Hc1 Hl1 Hc2 Hl2 Hp.
  rewrite !calculateRadialContribution_closed by assumption.
  split.
  - apply le_fin.
    assert (H : Rmin 0.4 (c1 * l1 * 0.005) <= Rmin 0.4 (c2 * l2 * 0.005))
      by (apply Rle_min_compat_l; lra).
    lra.
  - intros H80. f_equal. rewrite Rmin_left by lra. lra.
Qed.

Lemma calculateRadialContribution_antitone_witness :
  (calculateRadialContribution (Fin 1) (Fin 8) (Fin 5)
   <=? calculateRadialContribution (Fin 2) (Fin 4) (Fin 5))%js = true /\
  (80 <= 4 * 5 ->
   calculateRadialContribution (Fin 2) (Fin 4) (Fin 5) = Fin 0.6).
Proof.
  apply (calculateRadialContribution_antitone (Fin 2) (Fin 1) 4 5 8 5); lra.
Defined.

End RadialProps.

Module EfficiencyProps.

Import GroundMath.

(** For every resistance but NaN and every finite target, positive or not,
    the efficiency is a finite number of [0,100]; a NaN resistance gives
    NaN. *)
Theorem calculateEfficiency_range_any_target (r : number) (t : R) :
  r <> NaN ->
  (exists e : R, calculateEfficiency r (Fin t) = Fin e /\ 0 <= e <= 100) /\
  calculateEfficiency NaN (Fin t) = NaN.
Proof.
  intros Hr. split; [| reflexivity].
  destruct (Rlt_dec 0 t) as [Ht | Ht].
  { apply EfficiencyFacts.calculateEfficiency_range; assumption. }
  destruct r as [x | | |]; [| | | contradiction].
  - unfold calculateEfficiency.
    destruct (Rle_dec x 0); js_cmp; [exists 100; split; [reflexivity | lra] |].
    change (Fin t * Fin 10)%js with (Fin (t * 10)).
    js_cmp. exists 0; split; [reflexivity | lra].
  - exists 0. split; [reflexivity | lra].
  - exists 100. split; [reflexivity | lra].
Qed.

Lemma calculateEfficiency_range_any_target_witness :
  (exists e : R, calculateEfficiency Infinity (Fin (-3)) = Fin e /\ 0 <= e <= 100) /\
  calculateEfficiency NaN (Fin (-3)) = NaN.
Proof. apply (calculateEfficiency_range_any_target Infinity (-3)). discriminate. Defined.

End EfficiencyProps.

Module FaultCurrentProps.

Import GroundMath.

Lemma calculateFaultCurrent_positive (V : R) (r : number) :
  JSMath.gt r (Fin 0) = true ->
  exists i : R,
    calculateFaultCurrent (Fin V) r = Fin i /\
    ((exists x, r = Fin x /\ 0 < x /\ i = V / x) \/ (r = Infinity /\ i = 0)).
Proof.
  intros Hr. destruct r as [x | | |]; try discriminate Hr.
  - assert (Hx : 0 < x).
    { unfold JSMath.gt, JSMath.lt, JSMath.Rltb in Hr.
      destruct (Rlt_dec 0 x); [assumption | discriminate]. }
    exists (V / x). unfold calculateFaultCurrent. js_cmp.
    rewrite div_fin by lra. split; [reflexivity |].
    left. exists x. repeat split; assumption.
  - exists 0. split; [reflexivity | right; split; reflexivity].
Qed.

(** For a non-negative voltage and resistances above zero (up to +Infinity)
    the fault current is never negative and never grows with the resistance;
    at +Infinity it is 0. *)
Theorem calculateFaultCurrent_antitone (V : R) (r1 r2 : number) :
  0 <= V -> JSMath.gt r1 (Fin 0) = true -> (r1 <=? r2)%js = true ->
  (Fin 0 <=? calculateFaultCurrent (Fin V) r2)%js = true /\
  (calculateFaultCurrent (Fin V) r2 <=? calculateFaultCurrent (Fin V) r1)%js = true /\
  calculateFaultCurrent (Fin V) Infinity = Fin 0.
Proof.
  intros HV H1 Hle.
  assert (H2 : JSMath.gt r2 (Fin 0) = true).
  { destruct r1 as [x1 | | |], r2 as [x2 | | |];
      try discriminate H1; try discriminate Hle; try reflexivity.
    unfold JSMath.gt, JSMath.lt, JSMath.Rltb in *.
    apply le_fin_iff in Hle.
    destruct (Rlt_dec 0 x1); [| discriminate].
    destruct (Rlt_dec 0 x2); [reflexivity | lra]. }
  destruct (calculateFaultCurrent_positive V r1 H1) as [i1 [E1 C1]].
  destruct (calculateFaultCurrent_positive V r2 H2) as [i2 [E2 C2]].
  rewrite E1, E2.
  assert (Hpos : forall x, 0 < x -> 0 <= V / x).
  { intros x Hx. apply Rmult_le_pos; [exact HV |].
    apply Rlt_le, Rinv_0_lt_compat; exact Hx. }
  split; [| split; [| reflexivity]].
  - apply le_fin.
    destruct C2 as [[x [_ [Hx ->]]] | [_ ->]]; [apply Hpos; exact Hx | lra].
  - apply le_fin.
    destruct C1 as [[x1 [Er1 [Hx1 ->]]] | [Er1 ->]];
      destruct C2 as [[x2 [Er2 [Hx2 ->]]] | [Er2 ->]]; subst r1 r2.
    + apply le_fin_iff in Hle. unfold Rdiv.
      apply Rmult_le_compat_l; [exact HV |].
      apply Rinv_le_contravar; assumption.
    + apply Hpos; exact Hx1.
    + discriminate Hle.
    + lra.
Qed.

Lemma calculateFaultCurrent_antitone_witness :
  (Fin 0 <=? calculateFaultCurrent (Fin 220) Infinity)%js = true /\
  (calculateFaultCurrent (Fin 220) Infinity
   <=? calculateFaultCurrent (Fin 220) (Fin 4))%js = true /\
  calculateFaultCurrent (Fin 220) Infinity = Fin 0.
Proof.
  apply (calculateFaultCurrent_antitone 220 (Fin 4) Infinity);
    [lra | | reflexivity].
  unfold JSMath.gt, JSMath.lt, JSMath.Rltb.
  destruct (Rlt_dec 0 4); [reflexivity | lra].
Defined.

End FaultCurrentProps.

(* ================================================================== *)
(** ** Status classes and the colours that follow them *)

Module StatusProps.

Import GroundMath StatusTable.
Open Scope string_scope.

Lemma getSystemStatus_cases (r : number) :
  (r <=? Fin 5)%js = true /\ status (getSystemStatus r) = "excellent" \/
  ((r <=? Fin 5)%js = false /\ (r <=? Fin 10)%js = true
   /\ status (getSystemStatus r) = "good") \/
  ((r <=? Fin 10)%js = false /\ (r <=? Fin 25)%js = true
   /\ status (getSystemStatus r) = "warning") \/
  ((r <=? Fin 5)%js = false /\ (r <=? Fin 10)%js = false
   /\ (r <=? Fin 25)%js = false /\ status (getSystemStatus r) = "danger").
Proof.
  unfold getSystemStatus.
  destruct (r <=? Fin 5)%js eqn:E5; [left; split; reflexivity |].
  destruct (r <=? Fin 10)%js eqn:E10; [right; left; repeat split; reflexivity |].
  destruct (r <=? Fin 25)%js eqn:E25;
    [right; right; left; repeat split; reflexivity |].
  right; right; right; repeat split; reflexivity.
Qed.

Lemma le_trans_fin (a b : number) (c : R) :
  (a <=? b)%js = true -> (b <=? Fin c)%js = true -> (a <=? Fin c)%js = true.
Proof.
  destruct a as [x | | |], b as [y | | |]; simpl; intros H1 H2;
    try discriminate; try reflexivity.
  apply Rleb_spec in H1, H2. apply Rleb_true. lra.
Qed.

Lemma le_weaken (a : number) (c d : R) :
  c <= d -> (a <=? Fin c)%js = true -> (a <=? Fin d)%js = true.
Proof.
  destruct a as [x | | |]; simpl; intros H1 H2;
    try discriminate; try reflexivity.
  apply Rleb_spec in H2. apply Rleb_true. lra.
Qed.

(** The status is one of the four tags, a larger resistance never gets a
    better one, and a NaN resistance is classed as danger. *)
Theorem getSystemStatus_monotone (r1 r2 : number) :
  (r1 <=? r2)%js = true ->
  (severity (status (getSystemStatus r1))
   <= severity (status (getSystemStatus r2)))%nat /\
  In (status (getSystemStatus r1)) ["excellent"; "good"; "warning"; "danger"] /\
  status (getSystemStatus NaN) = "danger".
Proof.
  intros Hle. split; [| split; [| reflexivity]].
  - destruct (getSystemStatus_cases r1)
      as [[A1 S1] | [[A1 [B1 S1]] | [[B1 [C1 S1]] | [A1 [B1 [C1 S1]]]]]];
      destruct (getSystemStatus_cases r2)
        as [[A2 S2] | [[A2 [B2 S2]] | [[B2 [C2 S2]] | [A2 [B2 [C2 S2]]]]]];
      rewrite S1, S2; cbn; try lia; exfalso.
    + pose proof (le_trans_fin _ _ _ Hle A2) as H. congruence.
    + pose proof (le_trans_fin _ _ _ Hle A2) as H.
      pose proof (le_weaken _ 5 10 ltac:(lra) H). congruence.
    + pose proof (le_trans_fin _ _ _ Hle B2) as H. congruence.
    + pose proof (le_trans_fin _ _ _ Hle A2) as H. congruence.
    + pose proof (le_trans_fin _ _ _ Hle B2) as H. congruence.
    + pose proof (le_trans_fin _ _ _ Hle C2) as H. congruence.
  - destruct (getSystemStatus_cases r1)
      as [[_ S1] | [[_ [_ S1]] | [[_ [_ S1]] | [_ [_ [_ S1]]]]]];
      rewrite S1; simpl; tauto.
Qed.

Lemma getSystemStatus_monotone_witness :
  (severity (status (getSystemStatus (Fin 7)))
   <= severity (status (getSystemStatus Infinity)))%nat /\
  In (status (getSystemStatus (Fin 7))) ["excellent"; "good"; "warning"; "danger"] /\
  status (getSystemStatus NaN) = "danger".
Proof. apply (getSystemStatus_monotone (Fin 7) Infinity). reflexivity. Defined.

(** The flow colours always match the status: for every resistance,
    infinities and NaN included, [updateColors] sets the colour pair that
    belongs to the tag [getSystemStatus] gives the same resistance, and it
    changes nothing else. *)
Theorem updateColors_follow_status
  (r : number) (flow : CurrentFlow.CurrentFlowSystem) :
  let flow' := CurrentFlow.updateColors r flow in
  (CurrentFlow.highIntensityColor flow', CurrentFlow.lowIntensityColor flow')
  = flowColours (status (getSystemStatus r)) /\
  CurrentFlow.intensity flow' = CurrentFlow.intensity flow /\
  CurrentFlow.flowSpeed flow' = CurrentFlow.flowSpeed flow /\
  CurrentFlow.isActive flow' = CurrentFlow.isActive flow.
Proof.
  unfold CurrentFlow.updateColors, getSystemStatus.
  destruct (r <=? Fin 5)%js; [repeat split |].
  destruct (r <=? Fin 10)%js; [repeat split |].
  destruct (r <=? Fin 25)%js; repeat split.
Qed.

End StatusProps.

(* ================================================================== *)
(** ** calculate() on ordinary configurations *)

Module CalculateProps.

Import GroundMath CalculateFacts Domain.
Open Scope string_scope.











Lemma WellFormed_set_weather (g : GroundingSystem) (w : string) :
  WellFormed g -> WellFormed (Main.set_weather w g).
Proof. intros W. destruct W. constructor; assumption. Qed.








End CalculateProps.

(* ================================================================== *)
(** ** Degenerate rods, and the two badges of the display *)

Module DegenerateProps.

Import GroundMath CalculateFacts.
Open Scope string_scope.

Lemma parallel_of_infinity (n : Z) (k : R) :
  (1 <= n)%Z -> 0 <= k ->
  calculateParallelResistance Infinity (Fin (IZR n)) (Fin k) = Infinity.
Proof.
  intros Hn Hk.
  assert (Hx : 1 <= IZR n) by (apply IZR_le; exact Hn).
  destruct (Req_dec_T (IZR n) 1) as [E | N].
  - rewrite E. apply ParallelFacts.calculateParallelResistance_one.
  - apply ParallelFacts.calculateParallelResistance_many_inf; lra.
Qed.

(** A rod of non-positive length or diameter cannot ground: with at least one
    rod (a whole number), non-negative radial count and length and finite
    voltage and target, the single-rod and total resistance are +Infinity,
    the efficiency is 0, the status is danger and the fault current is 0,
    whatever the soil, weather, humidity and spacing. *)
Theorem calculate_degenerate_rod
  (g : GroundingSystem) (n : Z) (c l V t : R) :
  rodCount g = Fin (IZR n) -> (1 <= n)%Z ->
  radialCount g = Fin c -> 0 <= c -> radialLength g = Fin l -> 0 <= l ->
  faultVoltage g = Fin V -> targetResistance g = Fin t ->
  (rodLength g <=? Fin 0)%js = true \/ (rodDiameter g <=? Fin 0)%js = true ->
  let m := metrics_of g in
  singleRodResistance m = Infinity /\
  totalResistance m = Infinity /\
  efficiency m = Fin 0 /\
  status (systemStatus m) = "danger" /\
  faultCurrent m = Fin 0.
Proof.
  intros En Hn Ec Hc El Hl EV Et Hdeg m. unfold m.
  assert (Es : singleRodResistance (metrics_of g) = Infinity).
  { rewrite singleRodResistance_eq. unfold calculateSingleRodResistance.
    destruct Hdeg as [H | H]; rewrite H; [reflexivity | now rewrite orb_true_r]. }
  assert (Etot : totalResistance (metrics_of g) = Infinity).
  { rewrite totalResistance_eq. unfold radialFactor, parallelResistance.
    rewrite Es, couplingFactor_eq, En.
    destruct (ParallelProps.getCouplingFactor_range (rodSpacing g) (rodLength g))
      as [k [Ek Hk]].
    rewrite Ek, parallel_of_infinity by (assumption || lra).
    rewrite Ec, El.
    destruct (radialFactor_positive Infinity c l Hc Hl) as [f [Ef Hf]].
    rewrite Ef. simpl. now rewrite sign_pos. }
  rewrite efficiency_eq, systemStatus_eq, faultCurrent_eq, Etot, EV, Et.
  repeat split; assumption.
Qed.

Lemma calculate_degenerate_rod_witness :
  let g := Main.set_weather "storm" (App.set_rodLength (Fin 0) GroundMath.constructor) in
  let m := metrics_of g in
  singleRodResistance m = Infinity /\
  totalResistance m = Infinity /\
  efficiency m = Fin 0 /\
  status (systemStatus m) = "danger" /\
  faultCurrent m = Fin 0.
Proof.
  apply (calculate_degenerate_rod
           (Main.set_weather "storm" (App.set_rodLength (Fin 0) GroundMath.constructor))
           4 8 5 220 5);
    try reflexivity; try lia; try lra.
  left. apply le_fin. lra.
Defined.

End DegenerateProps.

Module BadgeProps.

Import GroundMath CalculateFacts.
Open Scope string_scope.

Lemma efficiencyValue_5_high (x : R) : x <= 14 -> 80 <= efficiencyValue x 5.
Proof.
  intros Hx. unfold efficiencyValue.
  destruct (Rle_dec x 0); [lra |].
  destruct (Rle_dec (5 * 10) x); [lra |].
  apply Rle_trans with (Rmin 100 ((1 - (x - 5) / (5 * 9)) * 100));
    [| apply Rmax_r].
  apply Rmin_glb; lra.
Qed.

Lemma efficiencyValue_5_low (x : R) : efficiencyValue x 5 < 50 -> 27.5 < x.
Proof.
  unfold efficiencyValue.
  destruct (Rle_dec x 0); [lra |].
  destruct (Rle_dec (5 * 10) x); [lra |].
  intros H.
  assert (H1 : Rmin 100 ((1 - (x - 5) / (5 * 9)) * 100) < 50).
  { apply Rle_lt_trans with (2 := H). apply Rmax_r. }
  unfold Rmin in H1. destruct (Rle_dec 100 _); lra.
Qed.

(** With the target at its fixed value 5 the efficiency badge is never
    harsher than the resistance badge: a total resistance classed excellent
    or good shows the plain efficiency class, and the efficiency class danger
    appears only together with the status danger. *)
Theorem badges_agree (g : GroundingSystem) :
  targetResistance g = Fin 5 ->
  totalResistance (metrics_of g) <> NaN ->
  let m := metrics_of g in
  (UI.resistanceClass m = "excellent" \/ UI.resistanceClass m = "good"
   -> UI.effClass m = "") /\
  (UI.effClass m = "danger" -> UI.resistanceClass m = "danger").
Proof.
  intros Et Hn m. unfold m, UI.resistanceClass, UI.effClass.
  rewrite systemStatus_eq, efficiency_eq, Et.
  destruct (totalResistance (metrics_of g)) as [x | | |]; [| | | contradiction].
  - rewrite EfficiencyFacts.calculateEfficiency_fin by lra.
    unfold getSystemStatus.
    destruct (Rle_dec x 5); js_cmp.
    { pose proof (efficiencyValue_5_high x ltac:(lra)).
      js_cmp. split; [reflexivity | discriminate]. }
    destruct (Rle_dec x 10); js_cmp.
    { pose proof (efficiencyValue_5_high x ltac:(lra)).
      js_cmp. split; [reflexivity | discriminate]. }
    destruct (Rle_dec x 25); js_cmp; cbn [status].
    + split; [intros [H | H]; discriminate H |].
      destruct (Rle_dec 80 (efficiencyValue x 5)); js_cmp; [discriminate |].
      destruct (Rle_dec 50 (efficiencyValue x 5)); js_cmp; [discriminate |].
      pose proof (efficiencyValue_5_low x ltac:(lra)). lra.
    + split; [intros [H | H]; discriminate H | reflexivity].
  - change (calculateEfficiency Infinity (Fin 5)) with (Fin 0).
    unfold getSystemStatus. simpl le. cbn [status]. js_cmp.
    split; [intros [H | H]; discriminate H | reflexivity].
  - change (calculateEfficiency NegInfinity (Fin 5)) with (Fin 100).
    unfold getSystemStatus. simpl le. cbn [status]. js_cmp.
    split; [reflexivity | discriminate].
Qed.

Lemma badges_agree_witness :
  let m := metrics_of GroundMath.constructor in
  (UI.resistanceClass m = "excellent" \/ UI.resistanceClass m = "good"
   -> UI.effClass m = "") /\
  (UI.effClass m = "danger" -> UI.resistanceClass m = "danger").
Proof.
  apply (badges_agree GroundMath.constructor); [reflexivity |].
  rewrite DefaultScenario.default_totalResistance. discriminate.
Defined.

End BadgeProps.

(* ================================================================== *)
(** ** terrain.js: the height under a point *)

Module HeightProps.

Import Three TerrainGeometry.





End HeightProps.

(* ================================================================== *)
(** ** climate.js: day, night and the sun *)

Module LightProps.

Import ClimateLights.

Lemma lt_fin (x y : R) : JSMath.lt (Fin x) (Fin y) = true <-> x < y.
Proof.
  simpl. unfold JSMath.Rltb. destruct (Rlt_dec x y); split; intros H;
    try assumption; try reflexivity; try discriminate; contradiction.
Qed.

Lemma lt_fin_true (x y : R) : x < y -> JSMath.lt (Fin x) (Fin y) = true.
Proof. apply lt_fin. Qed.

Lemma lt_fin_false (x y : R) : y <= x -> JSMath.lt (Fin x) (Fin y) = false.
Proof.
  intros H. simpl. unfold JSMath.Rltb. destruct (Rlt_dec x y); [lra | reflexivity].
Qed.

(** The day test on a number, and on the same number clamped to [0,1]. *)
Lemma isDay_clamped (v : number) :
  UI.isDay (JS.max (Fin 0) (JS.min (Fin 1) v)) = UI.isDay v.
Proof.
  destruct v as [x | | |]; try reflexivity.
  - rewrite min_fin, max_fin. unfold UI.isDay, JSMath.gt.
    assert (H1 : 0.2 < Rmax 0 (Rmin 1 x) <-> 0.2 < x).
    { unfold Rmax, Rmin. destruct (Rle_dec 1 x); destruct (Rle_dec 0 _);
        split; intros; lra. }
    assert (H2 : Rmax 0 (Rmin 1 x) < 0.8 <-> x < 0.8).
    { unfold Rmax, Rmin. destruct (Rle_dec 1 x); destruct (Rle_dec 0 _);
        split; intros; lra. }
    destruct (Rlt_dec 0.2 x) as [A | A]; destruct (Rlt_dec x 0.8) as [B | B].
    + rewrite (lt_fin_true 0.2 x A), (lt_fin_true x 0.8 B).
      rewrite (lt_fin_true 0.2 (Rmax 0 (Rmin 1 x))) by (apply H1; exact A).
      rewrite (lt_fin_true (Rmax 0 (Rmin 1 x)) 0.8) by (apply H2; exact B).
      reflexivity.
    + rewrite (lt_fin_false x 0.8) by lra.
      rewrite (lt_fin_false (Rmax 0 (Rmin 1 x)) 0.8);
        [now rewrite !andb_false_r |].
      destruct (Rle_dec 0.8 (Rmax 0 (Rmin 1 x))); [assumption |].
      exfalso. apply B, H2. lra.
    + rewrite (lt_fin_false 0.2 x) by lra.
      rewrite (lt_fin_false 0.2 (Rmax 0 (Rmin 1 x))); [reflexivity |].
      destruct (Rle_dec (Rmax 0 (Rmin 1 x)) 0.2); [assumption |].
      exfalso. apply A, H1. lra.
    + rewrite (lt_fin_false 0.2 x) by lra.
      rewrite (lt_fin_false 0.2 (Rmax 0 (Rmin 1 x))); [reflexivity |].
      destruct (Rle_dec (Rmax 0 (Rmin 1 x)) 0.2); [assumption |].
      exfalso. apply A, H1. lra.
  - simpl JS.min. rewrite max_fin. unfold UI.isDay, JSMath.gt.
    rewrite (lt_fin_false (Rmax 0 1) 0.8).
    + now rewrite andb_false_r.
    + rewrite Rmax_right by lra. lra.
  - change (JS.max (Fin 0) (JS.min (Fin 1) NegInfinity)) with (Fin 0).
    unfold UI.isDay, JSMath.gt. rewrite (lt_fin_false 0.2 0) by lra.
    reflexivity.
Qed.

(** The status bar and the lighting never disagree about day and night: for
    every value given to [setTimeOfDay], NaN and the infinities included,
    the moon is shown exactly when the status bar (which tests the raw value)
    says night; the stored time is the clamped value. *)
Theorem setTimeOfDay_day_night
  (time : number) (climate : Climate.ClimateSystem) (lights : Lights) :
  let after := setTimeOfDay time (climate, lights) in
  moonVisible (snd after) = negb (UI.isDay time) /\
  Climate.timeOfDay (fst after) = JS.max (Fin 0) (JS.min (Fin 1) time) /\
  Climate.weather (fst after) = Climate.weather climate /\
  Climate.humidity (fst after) = Climate.humidity climate.
Proof.
  cbv zeta. unfold setTimeOfDay. cbn [fst snd].
  split; [| repeat split].
  unfold applyTimeOfDay. cbn [Climate.setTimeOfDay Climate.timeOfDay].
  pose proof (isDay_clamped time) as H. unfold UI.isDay in H |- *.
  rewrite H. destruct (JSMath.gt time (Fin 0.2) && JSMath.lt time (Fin 0.8));
    reflexivity.
Qed.

(** Whatever time is set, the sun keeps a positive intensity of at most 1.5
    and the ambient light stays within [0.15, 0.6]. *)
Theorem setTimeOfDay_light_bounds
  (time : number) (climate : Climate.ClimateSystem) (lights : Lights) :
  let after := setTimeOfDay time (climate, lights) in
  exists s a : R,
    sunIntensity (snd after) = Fin s /\ 0 < s <= 1.5 /\
    ambientIntensity (snd after) = Fin a /\ 0.15 <= a <= 0.6.
Proof.
  cbv zeta. unfold setTimeOfDay. cbn [fst snd].
  cbn [Climate.setTimeOfDay Climate.timeOfDay].
  set (t := JS.max (Fin 0) (JS.min (Fin 1) time)).
  unfold applyTimeOfDay.
  destruct (JSMath.gt t (Fin 0.2) && JSMath.lt t (Fin 0.8)) eqn:Eday.
  - apply andb_prop in Eday. destruct Eday as [E1 E2].
    destruct t as [x | | |] eqn:Et; try discriminate E1; try discriminate E2.
    unfold JSMath.gt in E1. apply lt_fin in E1. apply lt_fin in E2.
    pose proof PI_RGT_0 as Hpi.
    assert (Hs : 0 < Rtrigo_def.sin (x * Rtrigo1.PI)).
    { apply sin_gt_0; nra. }
    pose proof (SIN_bound (x * Rtrigo1.PI)) as [_ Hs1].
    cbn. do 2 eexists. split; [reflexivity |]. split; [lra |].
    split; [reflexivity | lra].
  - cbn. exists 0.1, 0.15. repeat split; lra.
Qed.

(** The colour of the sun is symmetric about noon: a finite time t and the
    time 1 - t give the same colour. *)
Theorem getSunColor_symmetric (t : R) :
  getSunColor (Fin (1 - t)) = getSunColor (Fin t).
Proof.
  unfold getSunColor, JSMath.gt.
  destruct (Rlt_dec t 0.3); destruct (Rlt_dec 0.7 t);
    destruct (Rlt_dec t 0.4); destruct (Rlt_dec 0.6 t);
    try lra;
    repeat first
      [ rewrite lt_fin_true by lra
      | rewrite lt_fin_false by lra ];
    reflexivity.
Qed.

End LightProps.

(* ================================================================== *)
(** ** main.js: what a session of terrain and climate changes keeps *)

Module SessionProps.

Import GroundMath Main Session.
Open Scope string_scope.

Lemma updateCalculations_state (this : GroundingSimulator) :
  snd (updateCalculations this) = this.
Proof.
  unfold updateCalculations.
  pose proof (MethodFacts.calculate_read_only (groundingSystem this)) as H.
  destruct (calculate (groundingSystem this)) as [m g']. cbn [snd] in *.
  subst g'. destruct this; reflexivity.
Qed.

Lemma setup_Synchronized : Synchronized setupSystems.
Proof.
  constructor; try reflexivity.
  change (Fin 0.5 = JS.max (Fin 0) (JS.min (Fin 1) (Fin 0.5))).
  rewrite min_fin, max_fin. f_equal.
  rewrite Rmin_right by lra. rewrite Rmax_right by lra. reflexivity.
Qed.

Lemma handle_state (e : Event) (this : GroundingSimulator) :
  exists this',
    snd (handle e this) = this' /\
    rods (groundingSystem this') = rods (groundingSystem this) /\
    (Synchronized this -> Synchronized this').
Proof.
  eexists. split; [reflexivity |].
  destruct e as [change | change]; destruct change;
    cbv beta iota zeta delta
      [handle handleTerrainChange handleClimateChange bind read assign
       on_terrain on_climate on_groundingSystem set_isEditing
       Climate.getHumidity];
    rewrite updateCalculations_state;
    (split; [reflexivity |]); intros [S1 S2 S3 S4 S5]; constructor;
    cbn [terrain climate groundingSystem isEditing
         set_soilType set_weather set_humidity
         soilType weather humidity
         Terrain.setSoilType Terrain.setHumidity Terrain.setEditMode
         Terrain.setBrushMode Terrain.setBrushSize Terrain.setBrushStrength
         Terrain.humidity Terrain.editMode Terrain.currentSoilType
         Climate.setWeather Climate.setTimeOfDay Climate.weather Climate.humidity] in *;
    try assumption; try reflexivity.
  all: try (unfold Terrain.setSoilType;
            destruct (Terrain.knownSoil value) eqn:K; cbn; try assumption;
            try reflexivity; try (intros H; congruence)).
Qed.

(** Terrain and climate changes keep the simulator synchronized: in every
    state reached from start-up by a session of such changes, climate and
    grounding system agree on the weather, the terrain humidity is the
    grounding humidity clamped to [0,1], the terrain's edit mode is the
    simulator's editing flag, and the terrain shows a soil it knows, the one
    of the grounding system whenever it knows that one.  From whatever state
    it starts, such a session leaves the rods, the radials, the fault voltage
    and the target of the grounding system as they were. *)
Theorem run_Synchronized (events : list Event) :
  Synchronized (run events setupSystems) /\
  forall this : GroundingSimulator,
    rods (groundingSystem (run events this)) = rods (groundingSystem this).
Proof.
  split.
  - generalize setup_Synchronized. generalize setupSystems as start.
    induction events as [| e events IH]; intros start Hstart; cbn [run].
    + exact Hstart.
    + destruct (handle_state e start) as [next [E [_ Hs]]].
      rewrite E. apply IH. apply Hs. exact Hstart.
  - induction events as [| e events IH]; intros this; cbn [run].
    + reflexivity.
    + destruct (handle_state e this) as [next [E [Hr _]]].
      rewrite E, IH. exact Hr.
Qed.

End SessionProps.
